(** * A shallow embedding of [allennlp_server/commands/server_simple.py]

    The module builds a Flask application around one AllenNLP predictor
    ([make_app]), renders a bare-bones HTML form ([_html]) and starts a
    gevent WSGI server ([serve]).  Python values become Rocq data, the
    closures created inside [make_app] become functions of the record of
    captured variables, and everything that can raise, log, print or exit
    runs in a small state-and-exception monad. *)

From Stdlib Require Import String Ascii List ZArith Bool Lia DecimalString.
Import ListNotations.
Local Open Scope list_scope.
Local Open Scope string_scope.

(** ** JSON values

    [request.get_json()], the predictor and [jsonify] exchange Python
    objects built from [None], booleans, numbers, strings, lists and
    dictionaries.  Dictionaries keep their insertion order, which
    [json.dumps] and [jsonify] expose, so an object is an association
    list. *)

#[warnings="-register-all"]
Inductive json : Type :=
| JNull
| JBool (b : bool)
| JInt (n : Z)
| JStr (s : string)
| JArr (items : list json)
| JObj (fields : list (string * json)).

(** [d.get(key)] on the association list of an object. *)
Fixpoint assoc {A : Type} (key : string) (kvs : list (string * A)) : option A :=
  match kvs with
  | [] => None
  | (k, v) :: rest => if String.eqb key k then Some v else assoc key rest
  end.

Definition json_get (key : string) (j : json) : option json :=
  match j with
  | JObj fields => assoc key fields
  | _ => None
  end.

(** ** Exceptions and outcomes *)

(** Modelled from the spec: the class [ServerError] lives in
    [allennlp_server/config_explorer/config_explorer.py], which is not part
    of the sources at hand.  The specification describes it as the single
    custom error kind that carries a JSON payload of [{message, status_code}]
    shape together with an HTTP status code; [to_dict] is the payload the
    error handler serialises. *)
Record ServerError : Type := mkServerError {
  message : string;
  status_code : Z
}.

Definition to_dict (error : ServerError) : json :=
  JObj [("message", JStr (message error));
        ("status_code", JInt (status_code error))].

Inductive exn : Type :=
| TypeError (what : string)
| KeyError (key : string)
| ValueError (what : string)
| SystemExit (code : Z)
| ServerErrorExn (error : ServerError)
| HTTPException (code : Z)
| OtherError (what : string).

Inductive Outcome (A : Type) : Type :=
| Returns (a : A)
| Raises (e : exn).
Arguments Returns {A} a.
Arguments Raises {A} e.

Definition obind {A B : Type} (o : Outcome A) (k : A -> Outcome B) : Outcome B :=
  match o with
  | Returns a => k a
  | Raises e => Raises e
  end.

Fixpoint omap {A B : Type} (f : A -> Outcome B) (xs : list A) : Outcome (list B) :=
  match xs with
  | [] => Returns []
  | x :: rest =>
      obind (f x) (fun y => obind (omap f rest) (fun ys => Returns (y :: ys)))
  end.

(** ** Strings: the double quote, [str.join] *)

Definition dquote : ascii := ascii_of_nat 34.

Definition dq : string := String dquote EmptyString.

(** [q s] is [s] between double quotes, as it stands in the Python source. *)
Definition q (s : string) : string := dq ++ s ++ dq.

(** [sep.join(parts)] *)
Fixpoint join (sep : string) (parts : list string) : string :=
  match parts with
  | [] => EmptyString
  | p :: rest =>
      match rest with
      | [] => p
      | _ => p ++ sep ++ join sep rest
      end
  end.

(** ** [string.Template]

    [Template.substitute] scans the template for [$]: [$$] is an escaped
    dollar, [$name] and [${name}] are placeholders whose identifier matches
    [[_a-z][_a-z0-9]*] (ASCII, case-insensitive), and any other [$] raises
    [ValueError].  A placeholder missing from the mapping raises [KeyError].
    Substituted values are not scanned again. *)

Inductive segment : Type :=
| Lit (text : string)
| Named (name : string)
| Invalid.

Definition between (lo hi : nat) (c : ascii) : bool :=
  let n := nat_of_ascii c in (lo <=? n)%nat && (n <=? hi)%nat.

Definition is_id_start (c : ascii) : bool :=
  Ascii.eqb c "_" || between 97 122 c || between 65 90 c.

Definition is_id_char (c : ascii) : bool :=
  is_id_start c || between 48 57 c.

Definition add_char (c : ascii) (segs : list segment) : list segment :=
  match segs with
  | Lit text :: rest => Lit (String c text) :: rest
  | _ => Lit (String c EmptyString) :: segs
  end.

Inductive scan_state : Type :=
| InText
| AfterDollar
| InName (acc : string)
| InBraces (acc : string).

Fixpoint tokenize (st : scan_state) (s : string) : list segment :=
  match s with
  | EmptyString =>
      match st with
      | InText => []
      | AfterDollar => [Invalid]
      | InName acc => [Named acc]
      | InBraces _ => [Invalid]
      end
  | String c rest =>
      let text_char :=
        if Ascii.eqb c "$" then tokenize AfterDollar rest
        else add_char c (tokenize InText rest) in
      match st with
      | InText => text_char
      | AfterDollar =>
          if Ascii.eqb c "$" then add_char "$" (tokenize InText rest)
          else if is_id_start c then tokenize (InName (String c EmptyString)) rest
          else if Ascii.eqb c "{" then tokenize (InBraces EmptyString) rest
          else [Invalid]
      | InName acc =>
          if is_id_char c then tokenize (InName (acc ++ String c EmptyString)) rest
          else Named acc :: text_char
      | InBraces acc =>
          if Ascii.eqb c "}" then
            match acc with
            | EmptyString => [Invalid]
            | _ => Named acc :: tokenize InText rest
            end
          else if (match acc with EmptyString => is_id_start c | _ => is_id_char c end)
          then tokenize (InBraces (acc ++ String c EmptyString)) rest
          else [Invalid]
      end
  end.

Definition Template (template : string) : list segment := tokenize InText template.

Definition segment_value (mapping : list (string * string)) (seg : segment)
  : Outcome string :=
  match seg with
  | Lit text => Returns text
  | Named name =>
      match assoc name mapping with
      | Some v => Returns v
      | None => Raises (KeyError name)
      end
  | Invalid => Raises (ValueError "Invalid placeholder in string")
  end.

Definition substitute (template : list segment) (mapping : list (string * string))
  : Outcome string :=
  obind (omap (segment_value mapping) template) (fun parts => Returns (join EmptyString parts)).

(** ** The page templates *)

Definition _PAGE_TEMPLATE : list segment := Template (
"
<html>
    <head>
        <title>
            $title
        </title>
        <style>
            $css
        </style>
    </head>
    <body>
        <div class=" ++ q "pane-container" ++ ">
            <div class=" ++ q "pane model" ++ ">
                <div class=" ++ q "pane__left model__input" ++ ">
                    <div class=" ++ q "model__content" ++ ">
                        <h2><span>$title</span></h2>
                        <div class=" ++ q "model__content" ++ ">
                            $inputs
                            <div class=" ++ q "form__field form__field--btn" ++ ">
                                <button type=" ++ q "button" ++ " class=" ++ q "btn btn--icon-disclosure" ++ " onclick=" ++ q "predict()" ++ ">
                                    Predict
                                </button>
                            </div>
                        </div>
                    </div>
                </div>
                <div class=" ++ q "pane__right model__output model__output--empty" ++ ">
                    <div class=" ++ q "pane__thumb" ++ "></div>
                    <div class=" ++ q "model__content" ++ ">
                        <div id=" ++ q "output" ++ " class=" ++ q "output" ++ ">
                            <div class=" ++ q "placeholder" ++ ">
                                <div class=" ++ q "placeholder__content" ++ ">
                                    <p>Run model to view results</p>
                                </div>
                            </div>
                        </div>
                    </div>
                </div>
            </div>
        </div>
    </body>
    <script>
    function predict() {
        var quotedFieldList = $qfl;
        var data = {};
        quotedFieldList.forEach(function(fieldName) {
            data[fieldName] = document.getElementById(" ++ q "input-" ++ " + fieldName).value;
        })

        var xhr = new XMLHttpRequest();
        xhr.open('POST', '/predict');
        xhr.setRequestHeader('Content-Type', 'application/json');
        xhr.onload = function() {
            if (xhr.status == 200) {
                // If you want a more impressive visualization than just
                // outputting the raw JSON, change this part of the code.
                var htmlResults = " ++ q "<pre>" ++ " + JSON.stringify(JSON.parse(xhr.responseText), null, 2) + " ++ q "</pre>" ++ ";

                document.getElementById(" ++ q "output" ++ ").innerHTML = htmlResults;
            }
        };
        xhr.send(JSON.stringify(data));
    }
    </script>
</html>
").

Definition _SINGLE_INPUT_TEMPLATE : list segment := Template (
"
        <div class=" ++ q "form__field" ++ ">
            <label for=" ++ q "input-$field_name" ++ ">$field_name</label>
            <input type=" ++ q "text" ++ " id=" ++ q "input-$field_name" ++ " type=" ++ q "text" ++ " required value placeholder=" ++ q "input goes here" ++ ">
        </div>
").

Definition _CSS : string :=
"
body,
html {
  min-width: 48em;
  background: #f9fafc;
  font-size: 16px
}

* {
  font-family: sans-serif;
  color: #232323
}

section {
  background: #fff
}

code,
code span,
pre,
.output {
  font-family: 'Roboto Mono', monospace!important
}

code {
  background: #f6f8fa
}

li,
p,
td,
th {
  -webkit-font-smoothing: antialiased;
  -moz-osx-font-smoothing: grayscale;
  font-size: 1.125em;
  line-height: 1.5em;
  margin: 1.2em 0
}

pre {
  margin: 2em 0
}

h1,
h2 {
  -webkit-font-smoothing: antialiased;
  -moz-osx-font-smoothing: grayscale;
  font-weight: 300
}

h2 {
  font-size: 2em;
  color: rgba(35, 35, 35, .75)
}

img {
  max-width: 100%
}

hr {
  display: block;
  border: none;
  height: .375em;
  background: #f6f8fa
}

blockquote,
hr {
  margin: 2.4em 0
}

.btn {
  text-decoration: none;
  cursor: pointer;
  text-transform: uppercase;
  font-size: 1em;
  margin: 0;
  -moz-appearance: none;
  -webkit-appearance: none;
  border: none;
  color: #fff!important;
  display: block;
  background: #2085bc;
  padding: .9375em 3.625em;
  -webkit-transition: background-color .2s ease, opacity .2s ease;
  transition: background-color .2s ease, opacity .2s ease
}

.btn.btn--blue {
  background: #2085bc
}

.btn:focus,
.btn:hover {
  background: #40affd;
  outline: 0
}

.btn:focus {
  box-shadow: 0 0 1.25em rgba(50, 50, 150, .05)
}

.btn:active {
  opacity: .66;
  background: #2085bc;
  -webkit-transition-duration: 0s;
  transition-duration: 0s
}

.btn:disabled,
.btn:disabled:active,
.btn:disabled:hover {
  cursor: default;
  background: #d0dae3
}

form {
  display: block
}

.form__field {
  -webkit-transition: margin .2s ease;
  transition: margin .2s ease
}

.form__field+.form__field {
  margin-top: 2.5em
}

.form__field label {
  display: block;
  font-weight: 600;
  font-size: 1.125em
}

.form__field label+* {
  margin-top: 1.25em
}

.form__field input[type=text],
.form__field textarea {
  -moz-appearance: none;
  -webkit-appearance: none;
  width: 100%;
  font-size: 1em;
  -webkit-font-smoothing: antialiased;
  -moz-osx-font-smoothing: grayscale;
  padding: .8125em 1.125em;
  color: #232323;
  border: .125em solid #d4dce2;
  display: block;
  box-sizing: border-box;
  -webkit-transition: background-color .2s ease, color .2s ease, border-color .2s ease, opacity .2s ease;
  transition: background-color .2s ease, color .2s ease, border-color .2s ease, opacity .2s ease
}

.form__field input[type=text]::-webkit-input-placeholder,
.form__field textarea::-webkit-input-placeholder {
  color: #b4b4b4
}

.form__field input[type=text]:-moz-placeholder,
.form__field textarea:-moz-placeholder {
  color: #b4b4b4
}

.form__field input[type=text]::-moz-placeholder,
.form__field textarea::-moz-placeholder {
  color: #b4b4b4
}

.form__field input[type=text]:-ms-input-placeholder,
.form__field textarea:-ms-input-placeholder {
  color: #b4b4b4
}

.form__field input[type=text]:focus,
.form__field textarea:focus {
  outline: 0;
  border-color: #63a7d4;
  box-shadow: 0 0 1.25em rgba(50, 50, 150, .05)
}

.form__field textarea {
  resize: vertical;
  min-height: 8.25em
}

.form__field .btn {
  -webkit-user-select: none;
  -moz-user-select: none;
  -ms-user-select: none;
  user-select: none;
  -webkit-touch-callout: none
}

.form__field--btn {
  display: -webkit-box;
  display: -ms-flexbox;
  display: -webkit-flex;
  display: flex;
  -webkit-flex-direction: row;
  -ms-flex-direction: row;
  -webkit-box-orient: horizontal;
  -webkit-box-direction: normal;
  flex-direction: row;
  -webkit-justify-content: flex-end;
  -ms-justify-content: flex-end;
  -webkit-box-pack: end;
  -ms-flex-pack: end;
  justify-content: flex-end
}

@media screen and (max-height:760px) {
  .form__instructions {
    margin: 1.875em 0 1.125em
  }
  .form__field:not(.form__field--btn)+.form__field:not(.form__field--btn) {
    margin-top: 1.25em
  }
}

body,
html {
  width: 100%;
  height: 100%;
  margin: 0;
  padding: 0;
  font-family: 'Source Sans Pro', sans-serif
}

h1 {
  font-weight: 300
}

.model__output {
  background: #fff
}

.model__output.model__output--empty {
  background: 0 0
}

.placeholder {
  width: 100%;
  height: 100%;
  display: -webkit-box;
  display: -ms-flexbox;
  display: -webkit-flex;
  display: flex;
  -webkit-align-items: center;
  -ms-flex-align: center;
  -webkit-box-align: center;
  align-items: center;
  -webkit-justify-content: center;
  -ms-justify-content: center;
  -webkit-box-pack: center;
  -ms-flex-pack: center;
  justify-content: center;
  -webkit-user-select: none;
  -moz-user-select: none;
  -ms-user-select: none;
  user-select: none;
  -webkit-touch-callout: none;
  cursor: default
}

.placeholder .placeholder__content {
  display: -webkit-box;
  display: -ms-flexbox;
  display: -webkit-flex;
  display: flex;
  -webkit-flex-direction: column;
  -ms-flex-direction: column;
  -webkit-box-orient: vertical;
  -webkit-box-direction: normal;
  flex-direction: column;
  -webkit-align-items: center;
  -ms-flex-align: center;
  -webkit-box-align: center;
  align-items: center;
  text-align: center
}

.placeholder svg {
  display: block
}

.placeholder svg.placeholder__empty,
.placeholder svg.placeholder__error {
  width: 6em;
  height: 3.625em;
  fill: #e1e5ea;
  margin-bottom: 2em
}

.placeholder svg.placeholder__error {
  width: 4.4375em;
  height: 4em
}

.placeholder p {
  font-size: 1em;
  margin: 0;
  padding: 0;
  color: #9aa8b2
}

.placeholder svg.placeholder__working {
  width: 3.4375em;
  height: 3.4375em;
  -webkit-animation: working 1s infinite linear;
  animation: working 1s infinite linear
}

@-webkit-keyframes working {
  0% {
    -webkit-transform: rotate(0deg)
  }
  100% {
    -webkit-transform: rotate(360deg)
  }
}

@keyframes working {
  0% {
    -webkit-transform: rotate(0deg);
    -ms-transform: rotate(0deg);
    transform: rotate(0deg)
  }
  100% {
    -webkit-transform: rotate(360deg);
    -ms-transform: rotate(360deg);
    transform: rotate(360deg)
  }
}

.model__content {
  padding: 1.875em 2.5em;
  margin: auto;
  -webkit-transition: padding .2s ease;
  transition: padding .2s ease
}

.model__content:not(.model__content--srl-output) {
  max-width: 61.25em
}

.model__content h2 {
  margin: 0;
  padding: 0;
  font-size: 1em
}

.model__content h2 span {
  font-size: 2em;
  color: rgba(35, 35, 35, .75)
}

.model__content h2 .tooltip,
.model__content h2 span {
  vertical-align: top
}

.model__content h2 span+.tooltip {
  margin-left: .4375em
}

.model__content>h2:first-child {
  margin: -.25em 0 0 -.03125em
}

.model__content__summary {
  font-size: 1em;
  -webkit-font-smoothing: antialiased;
  -moz-osx-font-smoothing: grayscale;
  padding: 1.25em;
  background: #f6f8fa
}

@media screen and (min-height:800px) {
  .model__content {
    padding-top: 4.6vh;
    padding-bottom: 4.6vh
  }
}

.pane-container {
  display: -webkit-box;
  display: -ms-flexbox;
  display: -webkit-flex;
  display: flex;
  -webkit-flex-direction: column;
  -ms-flex-direction: column;
  -webkit-box-orient: vertical;
  -webkit-box-direction: normal;
  flex-direction: column;
  height: 100%
}

.pane {
  display: -webkit-box;
  display: -ms-flexbox;
  display: -webkit-flex;
  display: flex;
  -webkit-flex-direction: row;
  -ms-flex-direction: row;
  -webkit-box-orient: horizontal;
  -webkit-box-direction: normal;
  flex-direction: row;
  position: relative;
  -webkit-box-flex: 2;
  -webkit-flex: 2;
  -ms-flex: 2;
  flex: 2;
  height: auto;
  min-height: 100%;
  min-height: 34.375em
}

.pane__left,
.pane__right {
  width: 100%;
  height: 100%;
  -webkit-align-self: stretch;
  -ms-flex-item-align: stretch;
  align-self: stretch;
  min-width: 24em;
  min-height: 34.375em
}

.pane__left {
  height: auto;
  min-height: 100%
}

.pane__right {
  width: 100%;
  overflow: auto;
  height: auto;
  min-height: 100%
}

.pane__right .model__content.model__content--srl-output {
  display: inline-block;
  margin: auto
}

.pane__thumb {
  height: auto;
  min-height: 100%;
  margin-left: -.625em;
  position: absolute;
  width: 1.25em
}

.pane__thumb:after {
  display: block;
  position: absolute;
  height: 100%;
  top: 0;
  content: " ++ dq ++ dq ++ ";
  width: .25em;
  background: #e1e5ea;
  left: .5em
}
".


(** ** The bare-bones page *)

(** [_html(title, field_names)].  Iterating over [None] raises [TypeError]
    as soon as the first generator expression is created. *)
Definition _html (title : string) (field_names : option (list string))
  : Outcome string :=
  match field_names with
  | None => Raises (TypeError "'NoneType' object is not iterable")
  | Some names =>
      obind (omap (fun field_name =>
                     substitute _SINGLE_INPUT_TEMPLATE [("field_name", field_name)])
                  names)
        (fun parts =>
           let inputs := join EmptyString parts in
           let quoted_field_names :=
             map (fun field_name => "'" ++ field_name ++ "'") names in
           let quoted_field_list := "[" ++ join "," quoted_field_names ++ "]" in
           substitute _PAGE_TEMPLATE
             [("title", title); ("css", _CSS); ("inputs", inputs);
              ("qfl", quoted_field_list)])
  end.

(** ** Requests, responses, the predictor *)

Inductive Body : Type :=
| Text (content : string)
| Json (value : json)
| ErrorPage (code : Z).

Record Response : Type := mkResponse {
  status : Z;
  body : Body
}.

(** What the request carries for [request.get_json()]: a body that decodes
    to a JSON value, a body that does not decode, or no JSON at all. *)
Inductive Payload : Type :=
| JsonBody (value : json)
| Malformed
| NoJson.

Record Request : Type := mkRequest {
  method : string;
  path : string;
  payload : Payload
}.

Definition get_json (request : Request) : Outcome json :=
  match payload request with
  | JsonBody value => Returns value
  | Malformed => Raises (HTTPException 400)
  | NoJson => Returns JNull
  end.

(** [jsonify(value)]: a JSON response with the default status. *)
Definition jsonify (value : json) : Response := mkResponse 200 (Json value).

(** The two capabilities of an AllenNLP [Predictor] the server uses.  Both
    are read-only over the loaded model and may raise. *)
Record Predictor : Type := mkPredictor {
  predict_json : json -> Outcome json;
  predict_batch_json : json -> Outcome (list json)
}.

(** The variables captured by the closures that [make_app] registers. *)
Record App : Type := mkApp {
  predictor : Predictor;
  field_names : option (list string);
  static_dir : option string;
  sanitizer : option (json -> Outcome json);
  title : string
}.

(** ** The world: log, standard output, the listening server *)

Inductive Level : Type := INFO | ERROR.

Record WSGIServer : Type := mkWSGIServer {
  address : string * Z;
  application : App
}.

Record World : Type := mkWorld {
  log : list (Level * string);
  stdout : list string;
  serving : option WSGIServer
}.

Definition M (A : Type) : Type := World -> Outcome A * World.

Definition ret {A : Type} (a : A) : M A := fun w => (Returns a, w).

Definition raise {A : Type} (e : exn) : M A := fun w => (Raises e, w).

Definition bind {A B : Type} (m : M A) (k : A -> M B) : M B :=
  fun w =>
    match m w with
    | (Returns a, w') => k a w'
    | (Raises e, w') => (Raises e, w')
    end.

Definition lift {A : Type} (o : Outcome A) : M A := fun w => (o, w).

Declare Scope monad_scope.
Delimit Scope monad_scope with monad.
Notation "x <- m ;; k" := (bind m (fun x => k))
  (at level 61, m at next level, right associativity) : monad_scope.
Notation "m ;; k" := (bind m (fun _ => k))
  (at level 61, right associativity) : monad_scope.
Local Open Scope monad_scope.

Definition logger_info (msg : string) : M unit :=
  fun w => (Returns tt, mkWorld (log w ++ [(INFO, msg)])%list (stdout w) (serving w)).

Definition logger_error (msg : string) : M unit :=
  fun w => (Returns tt, mkWorld (log w ++ [(ERROR, msg)])%list (stdout w) (serving w)).

Definition print (line : string) : M unit :=
  fun w => (Returns tt, mkWorld (log w) (stdout w ++ [line])%list (serving w)).

Definition sys_exit {A : Type} (code : Z) : M A := raise (SystemExit code).

(** [for p in xs] with a body that may raise or log. *)
Fixpoint mapM {A B : Type} (f : A -> M B) (xs : list A) : M (list B) :=
  match xs with
  | [] => ret []
  | x :: rest => y <- f x ;; ys <- mapM f rest ;; ret (y :: ys)
  end.

(** ** The environment

    Library and operating-system functions the module calls but does not
    define. *)
Record Env : Type := mkEnv {
  json_dumps : json -> string;
  os_path_abspath : string -> string;
  os_path_exists : string -> bool;
  os_path_join : string -> string -> string;
  send_file : string -> Outcome Response;
  send_from_directory : string -> string -> Outcome Response;
  root_path : string;
  Archive : Type;
  check_for_gpu : Z -> Outcome unit;
  load_archive : string -> option string -> Z -> string -> Outcome Archive;
  from_archive : Archive -> string -> Outcome Predictor
}.

(** ** [make_app] and the views it registers *)

Section Server.

Variable env : Env.

Definition neither_passed : string :=
  "Neither build_dir nor field_names passed. Demo won't render on this port.
You must use nodejs + react app to interact with the server.".

(** [make_app(predictor, field_names, static_dir, sanitizer, title)].  The
    returned record holds [static_dir] after [os.path.abspath], as the
    closures see it. *)
Definition make_app (predictor : Predictor) (field_names : option (list string))
    (static_dir : option string) (sanitizer : option (json -> Outcome json))
    (title : string) : M App :=
  static_dir <-
    match static_dir with
    | Some dir =>
        let static_dir := os_path_abspath env dir in
        if negb (os_path_exists env static_dir) then
          logger_error ("app directory " ++ static_dir ++ " does not exist, aborting") ;;
          sys_exit (-1)
        else ret (Some static_dir)
    | None =>
        match field_names with
        | None => print neither_passed ;; ret None
        | Some _ => ret None
        end
    end ;;
  ret (mkApp predictor field_names static_dir sanitizer title).

Definition default_title : string := "AllenNLP Demo".

(** [@app.errorhandler(ServerError)] *)
Definition handle_invalid_usage (error : ServerError) : Response :=
  let response := jsonify (to_dict error) in
  mkResponse (status_code error) (body response).

(** [@app.route("/")] *)
Definition index (app : App) : M Response :=
  match static_dir app with
  | Some dir => lift (send_file env (os_path_join env dir "index.html"))
  | None =>
      html <- lift (_html (title app) (field_names app)) ;;
      ret (mkResponse 200 (Text html))
  end.

(** [@app.route("/predict", methods=["POST", "OPTIONS"])] *)
Definition predict (app : App) (request : Request) : M Response :=
  if String.eqb (method request) "OPTIONS" then
    ret (mkResponse 200 (Text EmptyString))
  else
    data <- lift (get_json request) ;;
    prediction <- lift (predict_json (predictor app) data) ;;
    prediction <-
      match sanitizer app with
      | Some sanitize => lift (sanitize prediction)
      | None => ret prediction
      end ;;
    let log_blob := JObj [("inputs", data); ("outputs", prediction)] in
    logger_info ("prediction: " ++ json_dumps env log_blob) ;;
    ret (jsonify prediction).

(** [@app.route("/predict_batch", methods=["POST", "OPTIONS"])] *)
Definition predict_batch (app : App) (request : Request) : M Response :=
  if String.eqb (method request) "OPTIONS" then
    ret (mkResponse 200 (Text EmptyString))
  else
    data <- lift (get_json request) ;;
    prediction <- lift (predict_batch_json (predictor app) data) ;;
    prediction <-
      match sanitizer app with
      | Some sanitize => mapM (fun p => lift (sanitize p)) prediction
      | None => ret prediction
      end ;;
    ret (jsonify (JArr prediction)).

(** [@app.route("/<path:path>")] *)
Definition static_proxy (app : App) (path : string) : M Response :=
  match static_dir app with
  | Some dir => lift (send_from_directory env dir path)
  | None => raise (ServerErrorExn (mkServerError "static_dir not specified" 404))
  end.

(** The view Flask itself registers for [Flask(__name__)]: files under the
    package's [static] folder. *)
Definition flask_static (filename : string) : M Response :=
  lift (send_from_directory env (os_path_join env (root_path env) "static") filename).

(** ** Routing

    Flask's [add_url_rule] and Werkzeug's matcher, for the two kinds of rule
    the application has: a fixed URL, and a prefix followed by a
    [<path:...>] argument (one or more characters, the first not a
    slash). *)

Inductive Pattern : Type :=
| Exact (url : string)
| PathUnder (prefix : string).

Inductive Endpoint : Type :=
| index_endpoint
| predict_endpoint
| predict_batch_endpoint
| static_proxy_endpoint
| static_endpoint.

Record Rule : Type := mkRule {
  rule_pattern : Pattern;
  rule_methods : list string;
  provide_automatic_options : bool;
  rule_endpoint : Endpoint
}.

Definition mem (x : string) (xs : list string) : bool := existsb (String.eqb x) xs.

(** [add_url_rule]: the methods default to [GET]; [OPTIONS] is added and
    answered automatically unless the route lists it; a rule with [GET]
    also answers [HEAD]. *)
Definition add_url_rule (pattern : Pattern) (methods : option (list string))
    (endpoint : Endpoint) : Rule :=
  let methods := match methods with Some ms => ms | None => ["GET"] end in
  let automatic := negb (mem "OPTIONS" methods) in
  let methods := if automatic then (methods ++ ["OPTIONS"])%list else methods in
  let methods :=
    if mem "GET" methods && negb (mem "HEAD" methods)
    then (methods ++ ["HEAD"])%list else methods in
  mkRule pattern methods automatic endpoint.

(** The rules in the order the matcher tries them: fixed URLs first, then
    the rule with the longer fixed prefix. *)
Definition url_map : list Rule :=
  [ add_url_rule (Exact "/") None index_endpoint;
    add_url_rule (Exact "/predict") (Some ["POST"; "OPTIONS"]) predict_endpoint;
    add_url_rule (Exact "/predict_batch") (Some ["POST"; "OPTIONS"]) predict_batch_endpoint;
    add_url_rule (PathUnder "/static/") None static_endpoint;
    add_url_rule (PathUnder "/") None static_proxy_endpoint ].

Fixpoint drop (n : nat) (s : string) : string :=
  match n, s with
  | O, _ => s
  | S n', String _ rest => drop n' rest
  | S _, EmptyString => EmptyString
  end.

(** The argument a pattern extracts from a URL, if it matches. *)
Definition match_pattern (pattern : Pattern) (url : string) : option string :=
  match pattern with
  | Exact u => if String.eqb url u then Some EmptyString else None
  | PathUnder pre =>
      if String.prefix pre url then
        match drop (String.length pre) url with
        | EmptyString => None
        | String c rest =>
            if Ascii.eqb c "/" then None else Some (String c rest)
        end
      else None
  end.

(** A rule whose pattern matches but whose methods do not include the
    request's is remembered and the search goes on; it turns a final miss
    into [405 Method Not Allowed] instead of [404 Not Found]. *)
Fixpoint match_rules (rules : list Rule) (have_match : bool)
    (meth url : string) : Outcome (Rule * string) :=
  match rules with
  | [] => Raises (HTTPException (if have_match then 405 else 404))
  | rule :: rest =>
      match match_pattern (rule_pattern rule) url with
      | Some arg =>
          if mem meth (rule_methods rule) then Returns (rule, arg)
          else match_rules rest true meth url
      | None => match_rules rest have_match meth url
      end
  end.

(** [str.lstrip("/")] *)
Fixpoint lstrip_slashes (s : string) : string :=
  match s with
  | EmptyString => EmptyString
  | String c rest => if Ascii.eqb c "/" then lstrip_slashes rest else s
  end.

(** [request.path]: the path of the request with its leading slashes
    reduced to one, which is also the path the URL map is matched against.
    (A request whose path is empty altogether is read as a request for
    [/].) *)
Definition request_path (request : Request) : string :=
  "/" ++ lstrip_slashes (path request).

Definition match_request (request : Request) : Outcome (Rule * string) :=
  match_rules url_map false (method request) (request_path request).

Definition dispatch_request (app : App) (request : Request) : M Response :=
  matched <- lift (match_request request) ;;
  let (rule, arg) := matched : Rule * string in
  if provide_automatic_options rule && String.eqb (method request) "OPTIONS" then
    ret (mkResponse 200 (Text EmptyString))
  else
    match rule_endpoint rule with
    | index_endpoint => index app
    | predict_endpoint => predict app request
    | predict_batch_endpoint => predict_batch app request
    | static_proxy_endpoint => static_proxy app arg
    | static_endpoint => flask_static arg
    end.

(** [app.log_exception]: Flask reports an exception no handler took on
    [app.logger], which for [Flask(__name__)] is the logger of this module. *)
Definition log_exception (request : Request) : M unit :=
  logger_error ("Exception on " ++ request_path request ++ " [" ++ method request ++ "]").

(** One request through the application: a [ServerError] goes to the
    registered handler, an HTTP exception becomes its own error page, any
    other exception is logged and answered with the framework's 500 page. *)
Definition wsgi_app (app : App) (request : Request) (w : World) : Response * World :=
  match dispatch_request app request w with
  | (Returns response, w') => (response, w')
  | (Raises (ServerErrorExn error), w') => (handle_invalid_usage error, w')
  | (Raises (HTTPException code), w') => (mkResponse code (ErrorPage code), w')
  | (Raises _, w') => (mkResponse 500 (ErrorPage 500), snd (log_exception request w'))
  end.

(** ** The [serve] subcommand *)

Record Namespace : Type := mkNamespace {
  args_archive_path : string;
  args_predictor : string;
  args_weights_file : option string;
  args_cuda_device : Z;
  args_overrides : string;
  args_static_dir : option string;
  args_title : string;
  args_field_names : option (list string);
  args_host : string;
  args_port : Z
}.

Definition _get_predictor (args : Namespace) : Outcome Predictor :=
  obind (check_for_gpu env (args_cuda_device args)) (fun _ =>
  obind (load_archive env (args_archive_path args) (args_weights_file args)
           (args_cuda_device args) (args_overrides args)) (fun archive =>
  from_archive env archive (args_predictor args))).

(** [http_server.serve_forever()] binds the listening socket and enters the
    accept loop, which does not return; the model records the server as
    serving and stops there. *)
Definition serve_forever (http_server : WSGIServer) : M unit :=
  fun w => (Returns tt, mkWorld (log w) (stdout w) (Some http_server)).

Definition str_of_Z (n : Z) : string :=
  DecimalString.NilZero.string_of_int (Z.to_int n).

(** [serve(args)].  [CORS(app)] only adds headers to the responses, which
    the model does not carry. *)
Definition serve (args : Namespace) : M unit :=
  predictor <- lift (_get_predictor args) ;;
  app <- make_app predictor (args_field_names args) (args_static_dir args)
           None (args_title args) ;;
  let http_server := mkWSGIServer (args_host args, args_port args) app in
  print ("Model loaded, serving demo on http://" ++ args_host args ++ ":"
         ++ str_of_Z (args_port args)) ;;
  serve_forever http_server.

(** The status the operating system sees when the interpreter ends on the
    given outcome: [sys.exit(code)] keeps the low eight bits of [code]. *)
Definition exit_status {A : Type} (o : Outcome A) : Z :=
  match o with
  | Returns _ => 0
  | Raises (SystemExit code) => code mod 256
  | Raises _ => 1
  end.

End Server.

(** ** Reading the elements of an HTML document

    The tags of a document, in document order: the text between each [<]
    and the [>] that closes it, a [>] inside a quoted attribute value not
    counting.  The scanner reads one character at a time, so it can be run
    over a document piece by piece. *)

Inductive tag_state : Type :=
| Outside
| Inside (acc : string) (quote : option ascii).

Definition is_quote (c : ascii) : bool := Ascii.eqb c dquote || Ascii.eqb c "'".

Fixpoint scan (st : tag_state) (s : string) : list string * tag_state :=
  match s with
  | EmptyString => ([], st)
  | String c rest =>
      match st with
      | Outside =>
          if Ascii.eqb c "<" then scan (Inside EmptyString None) rest
          else scan Outside rest
      | Inside acc None =>
          if Ascii.eqb c ">" then
            let (found, st') := scan Outside rest in (acc :: found, st')
          else
            scan (Inside (acc ++ String c EmptyString)
                    (if is_quote c then Some c else None)) rest
      | Inside acc (Some opened) =>
          scan (Inside (acc ++ String c EmptyString)
                  (if Ascii.eqb c opened then None else Some opened)) rest
      end
  end.

Definition tags (html : string) : list string := fst (scan Outside html).

Definition is_blank (c : ascii) : bool :=
  Ascii.eqb c " " || Ascii.eqb c "010" || Ascii.eqb c "009" || Ascii.eqb c "/".

(** The element name a tag starts with. *)
Fixpoint tag_name (tag : string) : string :=
  match tag with
  | EmptyString => EmptyString
  | String c rest => if is_blank c then EmptyString else String c (tag_name rest)
  end.

Definition is_input (tag : string) : bool := String.eqb (tag_name tag) "input".

Definition input_elements (html : string) : list string :=
  filter is_input (tags html).

Fixpoint until_quote (s : string) : string :=
  match s with
  | EmptyString => EmptyString
  | String c rest =>
      if Ascii.eqb c dquote then EmptyString
      else String c (until_quote rest)
  end.

(** [c not in s] *)
Fixpoint lacks (c : ascii) (s : string) : bool :=
  match s with
  | EmptyString => true
  | String c' rest => negb (Ascii.eqb c' c) && lacks c rest
  end.

(** An attribute value that HTML takes as it is written: it holds no [&],
    which would start a character reference, and no carriage return or NUL,
    which HTML replaces. *)
Definition stands_for_itself (value : string) : bool :=
  lacks "&" value && lacks "013" value && lacks "000" value.

(** The value of the first [id] attribute of a tag, when the text of the
    attribute stands for itself; a value that HTML would rewrite is not
    read. *)
Fixpoint element_id (tag : string) : option string :=
  match tag with
  | EmptyString => None
  | String c rest =>
      if String.prefix (" id=" ++ dq) tag then
        let value := until_quote (drop 5 tag) in
        if stands_for_itself value then Some value else None
      else element_id rest
  end.

(** The text input the form shows for a field name. *)
Definition text_input (field_name : string) : string :=
  "input type=" ++ q "text" ++ " id=" ++ q ("input-" ++ field_name)
  ++ " type=" ++ q "text" ++ " required value placeholder=" ++ q "input goes here".

(** A field name that can stand in the markup as it is, as text and inside
    a quoted attribute value: no [<] and no double quote. *)
Definition plain (s : string) : bool := lacks "<" s && lacks dquote s.

(** A field name whose markup also reads back as the name: plain, and
    standing for itself as an attribute value. *)
Definition verbatim (s : string) : bool := plain s && stands_for_itself s.

(** The page [GET /] returns has one text input per field name, with id
    [input-<field_name>], in the order of the list. *)
Definition one_input_per_field (env : Env) (app : App) (names : list string) : Prop :=
  forall w, exists html,
    wsgi_app env app (mkRequest "GET" "/" NoJson) w = (mkResponse 200 (Text html), w)
    /\ input_elements html = map text_input names
    /\ map element_id (input_elements html) =
       map (fun field_name => Some ("input-" ++ field_name)) names.

(** ** Vocabulary of the statements *)

(** The sanitizer applied exactly when one is configured. *)
Definition sanitized (sanitizer : option (json -> Outcome json)) (prediction : json)
  : Outcome json :=
  match sanitizer with
  | Some sanitize => sanitize prediction
  | None => Returns prediction
  end.

(** The world after one more log record. *)
Definition logged (w : World) (level : Level) (msg : string) : World :=
  mkWorld (log w ++ [(level, msg)])%list (stdout w) (serving w).

(** The world after one more line on standard output. *)
Definition printed (w : World) (line : string) : World :=
  mkWorld (log w) (stdout w ++ [line])%list (serving w).



Definition static_proxy_rule : Rule :=
  add_url_rule (PathUnder "/") None static_proxy_endpoint.

(** ** A stub predictor and a test environment *)

Fixpoint show_json (j : json) : string :=
  match j with
  | JNull => "null"
  | JBool true => "true"
  | JBool false => "false"
  | JInt n => str_of_Z n
  | JStr s => q s
  | JArr items => "[" ++ join ", " (map show_json items) ++ "]"
  | JObj fields =>
      "{" ++ join ", " (map (fun kv => q (fst kv) ++ ": " ++ show_json (snd kv)) fields)
      ++ "}"
  end.

(** [predict_json({"a": v}) == {"r": v}] *)
Definition stub_predict_json (inputs : json) : Outcome json :=
  match json_get "a" inputs with
  | Some v => Returns (JObj [("r", v)])
  | None => Raises (KeyError "a")
  end.

Definition stub_predictor : Predictor :=
  mkPredictor stub_predict_json
    (fun inputs =>
       match inputs with
       | JArr items => omap stub_predict_json items
       | _ => Raises (TypeError "inputs must be a list")
       end).

(** A sanitizer that drops the key [r]. *)
Definition drop_r (prediction : json) : Outcome json :=
  match prediction with
  | JObj fields =>
      Returns (JObj (filter (fun kv => negb (String.eqb (fst kv) "r")) fields))
  | other => Returns other
  end.

(** An environment whose only directory is [/srv/demo], with no files. *)
Definition test_env : Env :=
  mkEnv show_json
    (fun p => if String.prefix "/" p then p else "/cwd/" ++ p)
    (String.eqb "/srv/demo")
    (fun a b => a ++ "/" ++ b)
    (fun _ => Raises (OtherError "FileNotFoundError"))
    (fun _ _ => Raises (HTTPException 404))
    "/cwd/allennlp_server/commands"
    unit
    (fun _ => Returns tt)
    (fun _ _ _ _ => Returns tt)
    (fun _ _ => Returns stub_predictor).

Definition empty_world : World := mkWorld [] [] None.

Definition a_x : json := JObj [("a", JStr "x")].
Definition a_y : json := JObj [("a", JStr "y")].
Definition r_x : json := JObj [("r", JStr "x")].
Definition r_y : json := JObj [("r", JStr "y")].

Definition stub_app : App :=
  mkApp stub_predictor (Some ["premise"; "hypothesis"]) None None default_title.

Definition sanitizing_app : App :=
  mkApp stub_predictor None (Some "/srv/demo") (Some drop_r) "Demo".

(** A field name that closes its attribute and opens an element of its own. *)
Definition markup_name : string :=
  "x" ++ dq ++ "><input type=" ++ q "text" ++ " id=" ++ dq ++ "input-y".

Definition markup_app : App :=
  mkApp stub_predictor (Some [markup_name]) None None default_title.

(** ** The rendered templates, piece by piece *)

(** The literal text at position [k] of a tokenized template. *)
Definition literal (template : list segment) (k : nat) : string :=
  match nth k template Invalid with
  | Lit text => text
  | _ => EmptyString
  end.

(** What [_SINGLE_INPUT_TEMPLATE] renders for one field name. *)
Definition form_field (field_name : string) : string :=
  literal _SINGLE_INPUT_TEMPLATE 0 ++ field_name
  ++ literal _SINGLE_INPUT_TEMPLATE 2 ++ field_name
  ++ literal _SINGLE_INPUT_TEMPLATE 4 ++ field_name
  ++ literal _SINGLE_INPUT_TEMPLATE 6.

(** What [_PAGE_TEMPLATE] renders. *)
Definition page (title inputs qfl : string) : string :=
  literal _PAGE_TEMPLATE 0 ++ title
  ++ literal _PAGE_TEMPLATE 2 ++ _CSS
  ++ literal _PAGE_TEMPLATE 4 ++ title
  ++ literal _PAGE_TEMPLATE 6 ++ inputs
  ++ literal _PAGE_TEMPLATE 8 ++ qfl
  ++ literal _PAGE_TEMPLATE 10.

(** ** Scanning piece by piece *)

(** Entering a piece in the middle of a tag: what was read of the tag so
    far goes in front of the first tag the piece completes. *)
Definition shift (acc : string) (r : list string * tag_state)
  : list string * tag_state :=
  match r with
  | (t :: more, st) => ((acc ++ t) :: more, st)
  | ([], Inside a quote) => ([], Inside (acc ++ a) quote)
  | ([], Outside) => ([], Outside)
  end.

(** A piece is quiet when it closes every tag it opens and holds no input
    element. *)
Definition quiet (s : string) : bool :=
  match scan Outside s with
  | (found, Outside) => forallb (fun t => negb (is_input t)) found
  | (_, Inside _ _) => false
  end.

(** The command line of the examples. *)
Definition serve_args (static_dir : option string) (field_names : option (list string))
  : Namespace :=
  mkNamespace "model.tar.gz" "stub" None (-1) EmptyString static_dir default_title
    field_names "127.0.0.1" 8000.

(** ** Substrings and nesting *)

(** [needle in s] *)
Fixpoint contains (needle s : string) : bool :=
  match s with
  | EmptyString => String.prefix needle EmptyString
  | String _ rest => String.prefix needle s || contains needle rest
  end.

Fixpoint take (n : nat) (s : string) : string :=
  match n, s with
  | O, _ => EmptyString
  | S n', String c rest => String c (take n' rest)
  | S _, EmptyString => EmptyString
  end.

(** The elements of HTML that have no closing tag. *)
Definition void_elements : list string :=
  ["area"; "base"; "br"; "col"; "embed"; "hr"; "img"; "input"; "link"; "meta";
   "source"; "track"; "wbr"].

(** The open elements after reading a list of tags, innermost first:
    an opening tag is pushed unless its element is void, a closing tag must
    name the innermost open element and pops it. *)
Fixpoint nesting (open : list string) (ts : list string) : option (list string) :=
  match ts with
  | [] => Some open
  | t :: rest =>
      match t with
      | String "/" name =>
          match open with
          | top :: below =>
              if String.eqb (tag_name name) top then nesting below rest else None
          | [] => None
          end
      | _ =>
          if mem (tag_name t) void_elements then nesting open rest
          else nesting (tag_name t :: open) rest
      end
  end.

Definition well_nested (html : string) : bool :=
  match nesting [] (tags html) with
  | Some [] => true
  | _ => false
  end.

(** The label the form shows for a field name. *)
Definition field_label (field_name : string) : string :=
  "<label for=" ++ q ("input-" ++ field_name) ++ ">" ++ field_name ++ "</label>".

(** The line of the page's script that lists the field names. *)
Definition script_field_list (names : list string) : string :=
  "var quotedFieldList = ["
  ++ join "," (map (fun field_name => "'" ++ field_name ++ "'") names) ++ "];".

(** An exception that is neither a [ServerError], nor an HTTP exception,
    nor [SystemExit]. *)
Definition is_plain_error (e : exn) : bool :=
  match e with
  | TypeError _ | KeyError _ | ValueError _ | OtherError _ => true
  | SystemExit _ | ServerErrorExn _ | HTTPException _ => false
  end.


(** ** More test environments *)


(** [test_env] on a machine without the GPU the command line asks for. *)
Definition no_gpu_env : Env :=
  mkEnv show_json
    (os_path_abspath test_env)
    (os_path_exists test_env)
    (os_path_join test_env)
    (send_file test_env)
    (send_from_directory test_env)
    (root_path test_env)
    unit
    (fun device =>
       if (device <? 0)%Z then Returns tt
       else Raises (OtherError "ConfigurationError"))
    (fun _ _ _ _ => Returns tt)
    (fun _ _ => Returns stub_predictor).


(** A sanitizer that fails on predictions for [y]. *)
Definition picky_sanitizer (prediction : json) : Outcome json :=
  match json_get "r" prediction with
  | Some (JStr "y") => Raises (ValueError "y")
  | _ => Returns prediction
  end.

(** * Properties *)

(** ** Strings and outcomes *)

(** A conjunction [negb b && rest = true] over the head and the tail of a
    string or list, split into [b = false] and the fact about the tail. *)
Ltac head_tail H Hhead Htail :=
  apply andb_prop in H; destruct H as [Hhead Htail];
  apply negb_true_iff in Hhead.

Lemma append_empty_r (s : string) : s ++ EmptyString = s.
Proof.
  induction s as [|c s IH]; simpl; [reflexivity | now rewrite IH].
Qed.

Lemma append_assoc3 (a b c : string) : (a ++ b) ++ c = a ++ b ++ c.
Proof.
  induction a as [|x a IH]; simpl; [reflexivity | now rewrite IH].
Qed.

Lemma join_empty_cons (p : string) (rest : list string) :
  join EmptyString (p :: rest) = p ++ join EmptyString rest.
Proof.
  destruct rest as [|p' rest]; simpl.
  - now rewrite append_empty_r.
  - reflexivity.
Qed.

Lemma lacks_append (c : ascii) (a b : string) :
  lacks c (a ++ b) = lacks c a && lacks c b.
Proof.
  induction a as [|x a IH]; simpl; [reflexivity|].
  rewrite IH. now rewrite andb_assoc.
Qed.

Lemma omap_returns {A B : Type} (f : A -> Outcome B) (g : A -> B) (xs : list A) :
  (forall x, f x = Returns (g x)) -> omap f xs = Returns (map g xs).
Proof.
  intros Hf. induction xs as [|x xs IH]; simpl; [reflexivity|].
  rewrite Hf, IH. reflexivity.
Qed.

(** ** The scanner over concatenations *)

Lemma scan_append (a b : string) : forall st,
  scan st (a ++ b) =
  let (found1, st1) := scan st a in
  let (found2, st2) := scan st1 b in
  ((found1 ++ found2)%list, st2).
Proof.
  induction a as [|c a IH]; intros st; simpl.
  - destruct (scan st b); reflexivity.
  - destruct st as [|acc [opened|]].
    + destruct (Ascii.eqb c "<"); apply IH.
    + apply IH.
    + destruct (Ascii.eqb c ">").
      * rewrite IH. destruct (scan Outside a) as [found1 st1].
        destruct (scan st1 b); reflexivity.
      * apply IH.
Qed.

Lemma shift_shift (a b : string) (r : list string * tag_state) :
  shift a (shift b r) = shift (a ++ b) r.
Proof.
  destruct r as [[|t more] [|acc quote]]; simpl; now rewrite ?append_assoc3.
Qed.

Lemma scan_inside (s : string) : forall acc quote,
  scan (Inside acc quote) s = shift acc (scan (Inside EmptyString quote) s).
Proof.
  induction s as [|c s IH]; intros acc quote; simpl.
  - now rewrite append_empty_r.
  - destruct quote as [opened|].
    + rewrite IH, (IH (String c EmptyString)). now rewrite shift_shift.
    + destruct (Ascii.eqb c ">").
      * destruct (scan Outside s) as [found st']. simpl.
        now rewrite append_empty_r.
      * rewrite IH, (IH (String c EmptyString)). now rewrite shift_shift.
Qed.

Lemma scan_outside_lacks (s : string) :
  lacks "<" s = true -> scan Outside s = ([], Outside).
Proof.
  induction s as [|c s IH]; simpl; [reflexivity|].
  intros H. head_tail H Hc Hs. rewrite Hc. now apply IH.
Qed.

(** Inside a double-quoted attribute value, text without a double quote
    stays inside the value. *)
Lemma scan_quoted_lacks (s : string) : forall acc,
  lacks dquote s = true ->
  scan (Inside acc (Some dquote)) s = ([], Inside (acc ++ s) (Some dquote)).
Proof.
  induction s as [|c s IH]; intros acc; simpl.
  - intros _. now rewrite append_empty_r.
  - intros H. head_tail H Hc Hs. rewrite Hc, IH by assumption.
    now rewrite append_assoc3.
Qed.

Lemma filter_none {A : Type} (p : A -> bool) (xs : list A) :
  forallb (fun x => negb (p x)) xs = true -> filter p xs = [].
Proof.
  induction xs as [|x xs IH]; simpl; [reflexivity|].
  intros H. head_tail H Hx Hxs. rewrite Hx. now apply IH.
Qed.

Lemma quiet_lacks (s : string) : lacks "<" s = true -> quiet s = true.
Proof.
  intros H. unfold quiet. now rewrite scan_outside_lacks.
Qed.

Lemma quiet_append_l (a b : string) :
  quiet a = true ->
  input_elements (a ++ b) = input_elements b
  /\ snd (scan Outside (a ++ b)) = snd (scan Outside b).
Proof.
  unfold quiet, input_elements, tags. intros H. rewrite scan_append.
  destruct (scan Outside a) as [found [|acc]]; [|discriminate].
  destruct (scan Outside b) as [found2 st2]. simpl.
  rewrite filter_app, (filter_none _ _ H). split; reflexivity.
Qed.

Lemma closed_append (a b : string) :
  snd (scan Outside a) = Outside ->
  input_elements (a ++ b) = (input_elements a ++ input_elements b)%list
  /\ snd (scan Outside (a ++ b)) = snd (scan Outside b).
Proof.
  unfold input_elements, tags. intros H. rewrite scan_append.
  destruct (scan Outside a) as [found st]. simpl in H. subst st.
  destruct (scan Outside b) as [found2 st2]. simpl.
  rewrite filter_app. split; reflexivity.
Qed.

Lemma quiet_inputs (s : string) :
  quiet s = true -> input_elements s = [] /\ snd (scan Outside s) = Outside.
Proof.
  unfold quiet, input_elements, tags.
  destruct (scan Outside s) as [found [|acc]]; [|discriminate].
  intros H. simpl. split; [now apply filter_none | reflexivity].
Qed.

(** ** The rendered form *)

Lemma single_input_rendering (field_name : string) :
  substitute _SINGLE_INPUT_TEMPLATE [("field_name", field_name)]
  = Returns (form_field field_name).
Proof. vm_compute. reflexivity. Qed.

Lemma page_rendering (title inputs qfl : string) :
  substitute _PAGE_TEMPLATE
    [("title", title); ("css", _CSS); ("inputs", inputs); ("qfl", qfl)]
  = Returns (page title inputs qfl).
Proof. vm_compute. reflexivity. Qed.

Lemma _html_renders (title : string) (names : list string) :
  _html title (Some names) =
  Returns (page title (join EmptyString (map form_field names))
             ("[" ++ join "," (map (fun n => "'" ++ n ++ "'") names) ++ "]")).
Proof.
  unfold _html.
  rewrite (omap_returns _ form_field names single_input_rendering).
  simpl obind. apply page_rendering.
Qed.

Lemma text_input_pieces (field_name : string) :
  text_input field_name =
  (("input type=" ++ q "text" ++ " id=" ++ dq ++ "input-") ++ field_name)
  ++ dq ++ " type=" ++ q "text" ++ " required value placeholder=" ++ q "input goes here".
Proof.
  unfold text_input, q. rewrite !append_assoc3. reflexivity.
Qed.

Lemma form_field_scan (field_name : string) :
  lacks "<" field_name = true -> lacks dquote field_name = true ->
  input_elements (form_field field_name) = [text_input field_name]
  /\ snd (scan Outside (form_field field_name)) = Outside.
Proof.
  intros Hlt Hq.
  assert (H0 : scan Outside (literal _SINGLE_INPUT_TEMPLATE 0) =
               (["div class=" ++ q "form__field"],
                Inside ("label for=" ++ dq ++ "input-") (Some dquote)))
    by (vm_compute; reflexivity).
  assert (H2 : scan (Inside EmptyString (Some dquote))
                 (literal _SINGLE_INPUT_TEMPLATE 2) = ([dq], Outside))
    by (vm_compute; reflexivity).
  assert (H4 : scan Outside (literal _SINGLE_INPUT_TEMPLATE 4) =
               (["/label"],
                Inside ("input type=" ++ q "text" ++ " id=" ++ dq ++ "input-")
                  (Some dquote)))
    by (vm_compute; reflexivity).
  assert (H6 : scan (Inside EmptyString (Some dquote))
                 (literal _SINGLE_INPUT_TEMPLATE 6) =
               ([dq ++ " type=" ++ q "text" ++ " required value placeholder="
                    ++ q "input goes here"; "/div"], Outside))
    by (vm_compute; reflexivity).
  unfold input_elements, tags, form_field.
  rewrite scan_append, H0.
  rewrite scan_append, (scan_quoted_lacks _ _ Hq).
  rewrite scan_append, scan_inside, H2. cbn [shift].
  rewrite scan_append, (scan_outside_lacks _ Hlt).
  rewrite scan_append, H4.
  rewrite scan_append, (scan_quoted_lacks _ _ Hq).
  rewrite scan_inside, H6. cbn [shift app fst snd filter].
  rewrite <- text_input_pieces.
  split; [|reflexivity].
  assert (Hin : is_input (text_input field_name) = true) by reflexivity.
  rewrite Hin. reflexivity.
Qed.

Lemma plain_parts (s : string) :
  plain s = true -> lacks "<" s = true /\ lacks dquote s = true.
Proof.
  unfold plain. intros H. apply andb_prop in H. exact H.
Qed.

Lemma form_fields_scan (names : list string) :
  Forall (fun n => plain n = true) names ->
  input_elements (join EmptyString (map form_field names)) = map text_input names
  /\ snd (scan Outside (join EmptyString (map form_field names))) = Outside.
Proof.
  induction 1 as [|n names Hn _ IH].
  - split; reflexivity.
  - cbn [map]. rewrite join_empty_cons.
    apply plain_parts in Hn. destruct Hn as [Hlt Hq].
    destruct (form_field_scan n Hlt Hq) as [Hin Hst].
    destruct (closed_append (form_field n)
                (join EmptyString (map form_field names)) Hst) as [E1 E2].
    destruct IH as [IH1 IH2].
    rewrite E1, E2, Hin, IH1. split; [reflexivity | assumption].
Qed.

Lemma quoted_list_lacks (names : list string) :
  Forall (fun n => plain n = true) names ->
  lacks "<" ("[" ++ join "," (map (fun n => "'" ++ n ++ "'") names) ++ "]") = true.
Proof.
  intros H.
  assert (J : lacks "<" (join "," (map (fun n => "'" ++ n ++ "'") names)) = true).
  { induction H as [|n names Hn Hrest IH]; [reflexivity|].
    apply plain_parts in Hn. destruct Hn as [Hlt _].
    cbn [map join]. destruct (map (fun n0 => "'" ++ n0 ++ "'") names) eqn:E.
    - rewrite !lacks_append, Hlt. reflexivity.
    - rewrite !lacks_append, Hlt, IH. reflexivity. }
  rewrite !lacks_append, J. reflexivity.
Qed.

Lemma page_scan (title inputs qfl : string) :
  lacks "<" title = true -> lacks "<" qfl = true ->
  snd (scan Outside inputs) = Outside ->
  input_elements (page title inputs qfl) = input_elements inputs.
Proof.
  intros Ht Hq Hin.
  assert (Q0 : quiet (literal _PAGE_TEMPLATE 0) = true) by (vm_compute; reflexivity).
  assert (Q2 : quiet (literal _PAGE_TEMPLATE 2) = true) by (vm_compute; reflexivity).
  assert (Qc : quiet _CSS = true) by (vm_compute; reflexivity).
  assert (Q4 : quiet (literal _PAGE_TEMPLATE 4) = true) by (vm_compute; reflexivity).
  assert (Q6 : quiet (literal _PAGE_TEMPLATE 6) = true) by (vm_compute; reflexivity).
  assert (Q8 : quiet (literal _PAGE_TEMPLATE 8) = true) by (vm_compute; reflexivity).
  assert (Q10 : quiet (literal _PAGE_TEMPLATE 10) = true) by (vm_compute; reflexivity).
  pose proof (quiet_lacks _ Ht) as Qt. pose proof (quiet_lacks _ Hq) as Qq.
  unfold page.
  rewrite (proj1 (quiet_append_l _ _ Q0)), (proj1 (quiet_append_l _ _ Qt)),
    (proj1 (quiet_append_l _ _ Q2)), (proj1 (quiet_append_l _ _ Qc)),
    (proj1 (quiet_append_l _ _ Q4)), (proj1 (quiet_append_l _ _ Qt)),
    (proj1 (quiet_append_l _ _ Q6)).
  rewrite (proj1 (closed_append _ _ Hin)).
  rewrite (proj1 (quiet_append_l _ _ Q8)), (proj1 (quiet_append_l _ _ Qq)).
  rewrite (proj1 (quiet_inputs _ Q10)). apply app_nil_r.
Qed.

Lemma until_quote_stops (s rest : string) :
  lacks (dquote) s = true ->
  until_quote (s ++ String (dquote) rest) = s.
Proof.
  induction s as [|c s IH]; intros H.
  - reflexivity.
  - cbn [lacks] in H. apply andb_prop in H. destruct H as [Hc Hs].
    apply negb_true_iff in Hc. cbn [append until_quote].
    rewrite Hc, IH by assumption. reflexivity.
Qed.

Lemma stands_for_itself_input_id (field_name : string) :
  stands_for_itself field_name = true ->
  stands_for_itself ("input-" ++ field_name) = true.
Proof.
  unfold stands_for_itself. intros H. rewrite !lacks_append.
  apply andb_prop in H. destruct H as [H H0].
  apply andb_prop in H. destruct H as [Ha Hr].
  rewrite Ha, Hr, H0. reflexivity.
Qed.

Lemma element_id_text_input (field_name : string) :
  lacks dquote field_name = true ->
  stands_for_itself field_name = true ->
  element_id (text_input field_name) = Some ("input-" ++ field_name).
Proof.
  intros H Hs. rewrite text_input_pieces, append_assoc3.
  transitivity
    (let value :=
       until_quote
         (("input-" ++ field_name)
          ++ String dquote
               (" type=" ++ q "text" ++ " required value placeholder="
                ++ q "input goes here")) in
     if stands_for_itself value then Some value else None).
  - reflexivity.
  - cbv zeta. rewrite until_quote_stops.
    + now rewrite (stands_for_itself_input_id field_name Hs).
    + rewrite lacks_append, H. reflexivity.
Qed.

(** ** Requests through the URL map *)

Lemma dispatch_index (env : Env) (app : App) (p : Payload) :
  dispatch_request env app (mkRequest "GET" "/" p) = index env app.
Proof. reflexivity. Qed.

Lemma dispatch_predict (env : Env) (app : App) (p : Payload) :
  dispatch_request env app (mkRequest "POST" "/predict" p)
  = predict env app (mkRequest "POST" "/predict" p).
Proof. reflexivity. Qed.

Lemma dispatch_predict_batch (env : Env) (app : App) (p : Payload) :
  dispatch_request env app (mkRequest "POST" "/predict_batch" p)
  = predict_batch app (mkRequest "POST" "/predict_batch" p).
Proof. reflexivity. Qed.

(** A [GET /predict] is not taken by the [/predict] rule; the search goes
    on to [/<path:path>]. *)
Lemma get_predict_route (p : Payload) :
  match_request (mkRequest "GET" "/predict" p) = Returns (static_proxy_rule, "predict").
Proof. reflexivity. Qed.






(** ** The prediction views *)

Lemma predict_view (env : Env) (app : App) (url : string) (data out out' : json)
    (w : World) :
  predict_json (predictor app) data = Returns out ->
  sanitized (sanitizer app) out = Returns out' ->
  predict env app (mkRequest "POST" url (JsonBody data)) w =
  (Returns (jsonify out'),
   logged w INFO
     ("prediction: " ++ json_dumps env (JObj [("inputs", data); ("outputs", out')]))).
Proof.
  intros Hp Hs. unfold predict, bind, lift, get_json. cbn [method payload String.eqb].
  change (("POST" =? "OPTIONS")%string) with false. cbv iota.
  rewrite Hp. unfold sanitized in Hs.
  destruct (sanitizer app) as [sanitize|].
  - rewrite Hs. reflexivity.
  - unfold ret. injection Hs as <-. reflexivity.
Qed.

Lemma sanitize_each (sanitizer : option (json -> Outcome json))
    (outs outs' : list json) (w : World) :
  Forall2 (fun p p' => sanitized sanitizer p = Returns p') outs outs' ->
  match sanitizer with
  | Some sanitize => mapM (fun p => lift (sanitize p)) outs
  | None => ret outs
  end w = (Returns outs', w).
Proof.
  intros H. destruct sanitizer as [sanitize|]; cbn [sanitized] in H.
  - induction H as [|p p' outs outs' Hp _ IH]; [reflexivity|].
    cbn [mapM]. unfold bind, lift at 1. rewrite Hp, IH. reflexivity.
  - unfold ret. f_equal. f_equal.
    induction H as [|p p' outs outs' Hp _ IH]; [reflexivity|].
    injection Hp as <-. now rewrite IH.
Qed.

Lemma predict_batch_view (app : App) (url : string) (data : json)
    (outs outs' : list json) (w : World) :
  predict_batch_json (predictor app) data = Returns outs ->
  Forall2 (fun p p' => sanitized (sanitizer app) p = Returns p') outs outs' ->
  predict_batch app (mkRequest "POST" url (JsonBody data)) w =
  (Returns (jsonify (JArr outs')), w).
Proof.
  intros Hp Hs. unfold predict_batch, bind, lift at 1 2, get_json.
  cbn [method payload]. change (("POST" =? "OPTIONS")%string) with false. cbv iota.
  rewrite Hp, (sanitize_each _ _ _ w Hs). reflexivity.
Qed.


Lemma wsgi_app_returns (env : Env) (app : App) (request : Request)
    (response : Response) (w w' : World) :
  dispatch_request env app request w = (Returns response, w') ->
  wsgi_app env app request w = (response, w').
Proof. intros H. unfold wsgi_app. now rewrite H. Qed.

Lemma wsgi_app_plain_error (env : Env) (app : App) (request : Request) (e : exn)
    (w w' : World) :
  is_plain_error e = true ->
  dispatch_request env app request w = (Raises e, w') ->
  wsgi_app env app request w =
  (mkResponse 500 (ErrorPage 500),
   logged w' ERROR
     ("Exception on " ++ request_path request ++ " [" ++ method request ++ "]")).
Proof.
  intros He H. unfold wsgi_app. rewrite H.
  destruct e; try discriminate He; reflexivity.
Qed.

(** ** POST /predict *)

(** C1: for every predictor and every decoded request body (a JSON object
    in particular) on which [predict_json] returns, [POST /predict]
    answers 200 with the prediction, passed through the sanitizer exactly
    when one is configured; the call leaves one log record behind. *)
Theorem post_predict_returns_prediction
    (env : Env) (app : App) (data out out' : json) (w : World) :
  predict_json (predictor app) data = Returns out ->
  sanitized (sanitizer app) out = Returns out' ->
  wsgi_app env app (mkRequest "POST" "/predict" (JsonBody data)) w =
  (mkResponse 200 (Json out'),
   logged w INFO
     ("prediction: " ++ json_dumps env (JObj [("inputs", data); ("outputs", out')]))).
Proof.
  intros Hp Hs. unfold wsgi_app.
  rewrite dispatch_predict, (predict_view env app _ data out out' w Hp Hs).
  reflexivity.
Qed.

(** The stub predictor of the specification, without a sanitizer and with
    one that drops the key [r]. *)
Lemma post_predict_stub :
  (predict_json (predictor stub_app) a_x = Returns r_x
   /\ sanitized (sanitizer stub_app) r_x = Returns r_x
   /\ wsgi_app test_env stub_app (mkRequest "POST" "/predict" (JsonBody a_x)) empty_world
      = (mkResponse 200 (Json r_x),
         logged empty_world INFO
           ("prediction: "
            ++ json_dumps test_env (JObj [("inputs", a_x); ("outputs", r_x)]))))
  /\
  (predict_json (predictor sanitizing_app) a_x = Returns r_x
   /\ sanitized (sanitizer sanitizing_app) r_x = Returns (JObj [])
   /\ wsgi_app test_env sanitizing_app
        (mkRequest "POST" "/predict" (JsonBody a_x)) empty_world
      = (mkResponse 200 (Json (JObj [])),
         logged empty_world INFO
           ("prediction: "
            ++ json_dumps test_env (JObj [("inputs", a_x); ("outputs", JObj [])])))).
Proof.
  split; (split; [reflexivity | split; [reflexivity|]]).
  - apply (post_predict_returns_prediction test_env stub_app a_x r_x r_x empty_world);
      reflexivity.
  - apply (post_predict_returns_prediction test_env sanitizing_app a_x r_x (JObj [])
             empty_world); reflexivity.
Defined.

(** ** POST /predict_batch *)

(** C2: for every predictor and every decoded request body (a JSON array in
    particular) on which [predict_batch_json] returns, [POST /predict_batch]
    answers 200 with the list of predictions, each element passed through
    the sanitizer when one is configured, in the order the predictor
    returned them. *)
Theorem post_predict_batch_returns_predictions
    (env : Env) (app : App) (data : json) (outs outs' : list json) (w : World) :
  predict_batch_json (predictor app) data = Returns outs ->
  Forall2 (fun p p' => sanitized (sanitizer app) p = Returns p') outs outs' ->
  wsgi_app env app (mkRequest "POST" "/predict_batch" (JsonBody data)) w =
  (mkResponse 200 (Json (JArr outs')), w).
Proof.
  intros Hp Hs. unfold wsgi_app.
  rewrite dispatch_predict_batch, (predict_batch_view app _ data outs outs' w Hp Hs).
  reflexivity.
Qed.

Lemma post_predict_batch_stub :
  (predict_batch_json (predictor stub_app) (JArr [a_x; a_y]) = Returns [r_x; r_y]
   /\ Forall2 (fun p p' => sanitized (sanitizer stub_app) p = Returns p')
        [r_x; r_y] [r_x; r_y]
   /\ wsgi_app test_env stub_app
        (mkRequest "POST" "/predict_batch" (JsonBody (JArr [a_x; a_y]))) empty_world
      = (mkResponse 200 (Json (JArr [r_x; r_y])), empty_world))
  /\
  (predict_batch_json (predictor sanitizing_app) (JArr [a_x; a_y]) = Returns [r_x; r_y]
   /\ Forall2 (fun p p' => sanitized (sanitizer sanitizing_app) p = Returns p')
        [r_x; r_y] [JObj []; JObj []]
   /\ wsgi_app test_env sanitizing_app
        (mkRequest "POST" "/predict_batch" (JsonBody (JArr [a_x; a_y]))) empty_world
      = (mkResponse 200 (Json (JArr [JObj []; JObj []])), empty_world)).
Proof.
  assert (H1 : Forall2 (fun p p' => sanitized (sanitizer stub_app) p = Returns p')
                 [r_x; r_y] [r_x; r_y])
    by (repeat constructor).
  assert (H2 : Forall2 (fun p p' => sanitized (sanitizer sanitizing_app) p = Returns p')
                 [r_x; r_y] [JObj []; JObj []])
    by (repeat constructor).
  split; (split; [reflexivity | split; [assumption|]]).
  - apply (post_predict_batch_returns_predictions test_env stub_app (JArr [a_x; a_y])
             [r_x; r_y] [r_x; r_y] empty_world); [reflexivity | exact H1].
  - apply (post_predict_batch_returns_predictions test_env sanitizing_app
             (JArr [a_x; a_y]) [r_x; r_y] [JObj []; JObj []] empty_world);
      [reflexivity | exact H2].
Defined.

(** ** OPTIONS *)

(** C6: whatever the predictor, sanitizer, static directory, field names
    and title, and whatever the request carries, [OPTIONS /predict] and
    [OPTIONS /predict_batch] answer 200 with an empty body and change
    nothing. *)
Theorem options_answers_empty_200 (env : Env) (app : App) (p : Payload) (w : World) :
  wsgi_app env app (mkRequest "OPTIONS" "/predict" p) w
  = (mkResponse 200 (Text EmptyString), w)
  /\ wsgi_app env app (mkRequest "OPTIONS" "/predict_batch" p) w
     = (mkResponse 200 (Text EmptyString), w).
Proof. split; reflexivity. Qed.

(** ** Title, field names and static directory do not reach the predictions *)

(** C10: two applications with the same predictor and the same sanitizer
    answer every [POST /predict] and every [POST /predict_batch] alike,
    whatever their titles, field names and static directories. *)
Theorem predictions_ignore_page_settings
    (env : Env) (app1 app2 : App) (p : Payload) (w : World) :
  predictor app1 = predictor app2 ->
  sanitizer app1 = sanitizer app2 ->
  wsgi_app env app1 (mkRequest "POST" "/predict" p) w
  = wsgi_app env app2 (mkRequest "POST" "/predict" p) w
  /\ wsgi_app env app1 (mkRequest "POST" "/predict_batch" p) w
     = wsgi_app env app2 (mkRequest "POST" "/predict_batch" p) w.
Proof.
  destruct app1 as [p1 f1 d1 s1 t1], app2 as [p2 f2 d2 s2 t2].
  cbn [predictor sanitizer]. intros <- <-. split; reflexivity.
Qed.

Lemma predictions_ignore_page_settings_stub :
  predictor stub_app = predictor (mkApp stub_predictor None (Some "/srv/demo") None "Demo")
  /\ sanitizer stub_app = sanitizer (mkApp stub_predictor None (Some "/srv/demo") None "Demo")
  /\ wsgi_app test_env stub_app (mkRequest "POST" "/predict" (JsonBody a_x)) empty_world
     = wsgi_app test_env (mkApp stub_predictor None (Some "/srv/demo") None "Demo")
         (mkRequest "POST" "/predict" (JsonBody a_x)) empty_world
  /\ wsgi_app test_env stub_app (mkRequest "POST" "/predict_batch" (JsonBody a_x))
       empty_world
     = wsgi_app test_env (mkApp stub_predictor None (Some "/srv/demo") None "Demo")
         (mkRequest "POST" "/predict_batch" (JsonBody a_x)) empty_world.
Proof.
  split; [reflexivity | split; [reflexivity|]].
  apply (predictions_ignore_page_settings test_env stub_app
           (mkApp stub_predictor None (Some "/srv/demo") None "Demo")
           (JsonBody a_x) empty_world); reflexivity.
Defined.

(** ** GET /<path> without a static directory *)





(** ** GET /predict *)

(** C7, as stated, fails: [GET] is not among the methods of the [/predict]
    route, and a [GET /predict] with a JSON object body is answered by the
    [/<path:path>] route, here with 404, not with the prediction. *)
Lemma get_predict_is_not_a_prediction :
  mem "GET" (rule_methods (add_url_rule (Exact "/predict") (Some ["POST"; "OPTIONS"])
                             predict_endpoint)) = false
  /\ fst (wsgi_app test_env stub_app (mkRequest "GET" "/predict" (JsonBody a_x))
            empty_world)
     = mkResponse 404 (Json (to_dict (mkServerError "static_dir not specified" 404)))
  /\ fst (wsgi_app test_env stub_app (mkRequest "GET" "/predict" (JsonBody a_x))
            empty_world)
     <> mkResponse 200 (Json r_x).
Proof.
  split; [reflexivity | split; [reflexivity | discriminate]].
Qed.

(** C7, amended: the methods of the [/predict] route are [POST] and
    [OPTIONS]; a [POST] with a JSON object body on which the predictor
    returns is answered 200 with the JSON prediction, while a [GET /predict]
    is served by the [/<path:path>] route with path [predict]. *)
Theorem predict_route_takes_post_not_get
    (env : Env) (app : App) (fields : list (string * json)) (out out' : json)
    (w : World) :
  predict_json (predictor app) (JObj fields) = Returns out ->
  sanitized (sanitizer app) out = Returns out' ->
  rule_methods (add_url_rule (Exact "/predict") (Some ["POST"; "OPTIONS"])
                  predict_endpoint) = ["POST"; "OPTIONS"]
  /\ fst (wsgi_app env app (mkRequest "POST" "/predict" (JsonBody (JObj fields))) w)
     = mkResponse 200 (Json out')
  /\ match_request (mkRequest "GET" "/predict" (JsonBody (JObj fields)))
     = Returns (static_proxy_rule, "predict")
  /\ dispatch_request env app (mkRequest "GET" "/predict" (JsonBody (JObj fields)))
     = static_proxy env app "predict".
Proof.
  intros Hp Hs. split; [reflexivity|]. split; [|split; reflexivity].
  unfold wsgi_app.
  rewrite dispatch_predict, (predict_view env app _ _ out out' w Hp Hs). reflexivity.
Qed.

Lemma predict_route_takes_post_not_get_stub :
  predict_json (predictor stub_app) (JObj [("a", JStr "x")]) = Returns r_x
  /\ sanitized (sanitizer stub_app) r_x = Returns r_x
  /\ fst (wsgi_app test_env stub_app
            (mkRequest "POST" "/predict" (JsonBody (JObj [("a", JStr "x")]))) empty_world)
     = mkResponse 200 (Json r_x)
  /\ dispatch_request test_env stub_app
       (mkRequest "GET" "/predict" (JsonBody (JObj [("a", JStr "x")])))
     = static_proxy test_env stub_app "predict".
Proof.
  split; [reflexivity | split; [reflexivity|]].
  pose proof (predict_route_takes_post_not_get test_env stub_app [("a", JStr "x")]
                r_x r_x empty_world eq_refl eq_refl) as H.
  split; [exact (proj1 (proj2 H)) | exact (proj2 (proj2 (proj2 H)))].
Defined.

(** ** Logging *)

(** C8, as stated, fails: a [POST /predict_batch] that returns its
    predictions writes no log line. *)
Lemma post_predict_batch_writes_no_log_line :
  fst (wsgi_app test_env stub_app
         (mkRequest "POST" "/predict_batch" (JsonBody (JArr [a_x; a_y]))) empty_world)
  = mkResponse 200 (Json (JArr [r_x; r_y]))
  /\ ~ (exists line,
          log (snd (wsgi_app test_env stub_app
                      (mkRequest "POST" "/predict_batch" (JsonBody (JArr [a_x; a_y])))
                      empty_world))
          = (log empty_world ++ [line])%list).
Proof.
  split; [reflexivity|]. intros [line H]. discriminate H.
Qed.

(** C8, amended: a [POST /predict_batch] that returns its predictions
    differs from [POST /predict] also in that it does not log: it writes no
    log line and leaves the world as it found it.  The one log line with
    the full inputs and outputs is written by [POST /predict]. *)
Theorem only_predict_logs
    (env : Env) (app : App) (batch data out out' : json) (outs outs' : list json)
    (w : World) :
  predict_batch_json (predictor app) batch = Returns outs ->
  Forall2 (fun p p' => sanitized (sanitizer app) p = Returns p') outs outs' ->
  predict_json (predictor app) data = Returns out ->
  sanitized (sanitizer app) out = Returns out' ->
  wsgi_app env app (mkRequest "POST" "/predict_batch" (JsonBody batch)) w
  = (mkResponse 200 (Json (JArr outs')), w)
  /\ log (snd (wsgi_app env app (mkRequest "POST" "/predict" (JsonBody data)) w))
     = log (logged w INFO
              ("prediction: "
               ++ json_dumps env (JObj [("inputs", data); ("outputs", out')]))).
Proof.
  intros Hb Hbs Hp Hs. split.
  - apply wsgi_app_returns. rewrite dispatch_predict_batch.
    exact (predict_batch_view app _ batch outs outs' w Hb Hbs).
  - rewrite (wsgi_app_returns env app _ _ w _
               (eq_trans (f_equal (fun v => v w) (dispatch_predict env app (JsonBody data)))
                  (predict_view env app _ data out out' w Hp Hs))).
    reflexivity.
Qed.

Lemma only_predict_logs_stub :
  predict_batch_json (predictor stub_app) (JArr [a_x; a_y]) = Returns [r_x; r_y]
  /\ Forall2 (fun p p' => sanitized (sanitizer stub_app) p = Returns p')
       [r_x; r_y] [r_x; r_y]
  /\ predict_json (predictor stub_app) a_x = Returns r_x
  /\ sanitized (sanitizer stub_app) r_x = Returns r_x
  /\ snd (wsgi_app test_env stub_app
            (mkRequest "POST" "/predict_batch" (JsonBody (JArr [a_x; a_y]))) empty_world)
     = empty_world
  /\ log (snd (wsgi_app test_env stub_app (mkRequest "POST" "/predict" (JsonBody a_x))
                 empty_world))
     = [(INFO, "prediction: "
               ++ json_dumps test_env (JObj [("inputs", a_x); ("outputs", r_x)]))].
Proof.
  assert (H : Forall2 (fun p p' => sanitized (sanitizer stub_app) p = Returns p')
                [r_x; r_y] [r_x; r_y])
    by (repeat constructor).
  pose proof (only_predict_logs test_env stub_app (JArr [a_x; a_y]) a_x r_x r_x
                [r_x; r_y] [r_x; r_y] empty_world eq_refl H eq_refl eq_refl) as T.
  split; [reflexivity | split; [exact H | split; [reflexivity | split; [reflexivity|]]]].
  split; [now rewrite (proj1 T) | exact (proj2 T)].
Defined.

(** ** Start-up *)

Lemma make_app_missing_static_dir (env : Env) (predictor : Predictor)
    (field_names : option (list string)) (dir : string)
    (sanitizer : option (json -> Outcome json)) (title : string) (w : World) :
  os_path_exists env (os_path_abspath env dir) = false ->
  make_app env predictor field_names (Some dir) sanitizer title w =
  (Raises (SystemExit (-1)),
   logged w ERROR
     ("app directory " ++ os_path_abspath env dir ++ " does not exist, aborting")).
Proof.
  intros H. unfold make_app, bind. rewrite H. reflexivity.
Qed.

(** C5: when the configured static directory does not exist, [make_app]
    logs the error and ends in [sys.exit(-1)], so the process ends with a
    non-zero status; no server is listening afterwards that was not
    listening before.  [serve], which builds the app before it creates the
    server, ends the same way once the predictor is loaded. *)
Theorem missing_static_dir_exits_before_serving
    (env : Env) (predictor : Predictor) (field_names : option (list string))
    (dir : string) (sanitizer : option (json -> Outcome json)) (title : string)
    (w : World) :
  os_path_exists env (os_path_abspath env dir) = false ->
  let w' := logged w ERROR
              ("app directory " ++ os_path_abspath env dir
               ++ " does not exist, aborting") in
  make_app env predictor field_names (Some dir) sanitizer title w
  = (Raises (SystemExit (-1)), w')
  /\ serving w' = serving w
  /\ exit_status (fst (make_app env predictor field_names (Some dir) sanitizer title w))
     = 255%Z
  /\ exit_status (fst (make_app env predictor field_names (Some dir) sanitizer title w))
     <> 0%Z
  /\ (forall args,
        args_static_dir args = Some dir ->
        _get_predictor env args = Returns predictor ->
        serve env args w = (Raises (SystemExit (-1)), w')).
Proof.
  intros He w'.
  pose proof (make_app_missing_static_dir env predictor field_names dir sanitizer
                title w He) as Hm.
  split; [exact Hm|]. split; [reflexivity|]. rewrite Hm.
  split; [reflexivity|]. split; [discriminate|].
  intros args Hd Hl. unfold serve, bind, lift at 1. rewrite Hl, Hd.
  rewrite (make_app_missing_static_dir env predictor _ dir None _ w He). reflexivity.
Qed.

Lemma missing_static_dir_exits_example :
  os_path_exists test_env (os_path_abspath test_env "no/such/dir") = false
  /\ make_app test_env stub_predictor None (Some "no/such/dir") None default_title
       empty_world
     = (Raises (SystemExit (-1)),
        mkWorld [(ERROR, "app directory /cwd/no/such/dir does not exist, aborting")]
          [] None)
  /\ serve test_env (serve_args (Some "no/such/dir") None) empty_world
     = (Raises (SystemExit (-1)),
        mkWorld [(ERROR, "app directory /cwd/no/such/dir does not exist, aborting")]
          [] None).
Proof.
  pose proof (missing_static_dir_exits_before_serving test_env stub_predictor None
                "no/such/dir" None default_title empty_world eq_refl) as H.
  split; [reflexivity|]. split; [exact (proj1 H)|].
  exact (proj2 (proj2 (proj2 (proj2 H))) (serve_args (Some "no/such/dir") None)
           eq_refl eq_refl).
Defined.

(** C9, as stated, fails: with neither a static directory nor field names
    [make_app] does not fail, and [GET /] fails when it is requested. *)
Lemma neither_passed_fails_per_request :
  ~ (exists e, fst (make_app test_env stub_predictor None None None default_title
                      empty_world) = Raises e)
  /\ fst (make_app test_env stub_predictor None None None default_title empty_world)
     = Returns (mkApp stub_predictor None None None default_title)
  /\ fst (wsgi_app test_env (mkApp stub_predictor None None None default_title)
            (mkRequest "GET" "/" NoJson) empty_world)
     = mkResponse 500 (ErrorPage 500).
Proof.
  split; [|split; reflexivity].
  intros [e H]. discriminate H.
Qed.

(** C9, amended: with neither a static directory nor field names, start-up
    does not fail: [make_app] prints a notice on standard output (it logs
    nothing) and returns the app, and [serve], once the predictor is loaded,
    goes on to serve it.  The failure of [GET /] is a per-request error:
    every such request raises inside the view, is reported by the framework
    in the log and answered with the framework's 500 page, so no page is
    rendered. *)
Theorem neither_passed_starts_and_fails_per_request
    (env : Env) (predictor : Predictor) (sanitizer : option (json -> Outcome json))
    (title : string) (w : World) :
  let app := mkApp predictor None None sanitizer title in
  make_app env predictor None None sanitizer title w
  = (Returns app, printed w neither_passed)
  /\ log (printed w neither_passed) = log w
  /\ (forall w2,
        dispatch_request env app (mkRequest "GET" "/" NoJson) w2
        = (Raises (TypeError "'NoneType' object is not iterable"), w2)
        /\ wsgi_app env app (mkRequest "GET" "/" NoJson) w2
           = (mkResponse 500 (ErrorPage 500), logged w2 ERROR "Exception on / [GET]"))
  /\ (forall args,
        args_static_dir args = None ->
        args_field_names args = None ->
        _get_predictor env args = Returns predictor ->
        exists w',
          serve env args w = (Returns tt, w')
          /\ serving w' = Some (mkWSGIServer (args_host args, args_port args)
                                  (mkApp predictor None None None (args_title args)))).
Proof.
  intros app. split; [reflexivity|]. split; [reflexivity|].
  split; [intros w2; split; reflexivity|].
  intros args Hd Hf Hl. eexists. unfold serve, bind, lift at 1. rewrite Hl, Hd, Hf.
  cbn. split; reflexivity.
Qed.

Lemma neither_passed_example :
  make_app test_env stub_predictor None None None default_title empty_world
  = (Returns (mkApp stub_predictor None None None default_title),
     printed empty_world neither_passed)
  /\ wsgi_app test_env (mkApp stub_predictor None None None default_title)
       (mkRequest "GET" "/" NoJson) empty_world
     = (mkResponse 500 (ErrorPage 500), logged empty_world ERROR "Exception on / [GET]")
  /\ (exists w',
        serve test_env (serve_args None None) empty_world = (Returns tt, w')
        /\ serving w' = Some (mkWSGIServer ("127.0.0.1", 8000%Z)
                                (mkApp stub_predictor None None None default_title))).
Proof.
  pose proof (neither_passed_starts_and_fails_per_request test_env stub_predictor None
                default_title empty_world) as H.
  split; [exact (proj1 H)|].
  split; [exact (proj2 (proj1 (proj2 (proj2 H)) empty_world))|].
  exact (proj2 (proj2 (proj2 H)) (serve_args None None) eq_refl eq_refl eq_refl).
Defined.

(** ** GET / *)

Lemma index_renders (env : Env) (app : App) (names : list string) (w : World) :
  static_dir app = None ->
  field_names app = Some names ->
  wsgi_app env app (mkRequest "GET" "/" NoJson) w =
  (mkResponse 200
     (Text (page (title app) (join EmptyString (map form_field names))
              ("[" ++ join "," (map (fun n => "'" ++ n ++ "'") names) ++ "]"))), w).
Proof.
  intros Hd Hf. unfold wsgi_app. rewrite dispatch_index.
  unfold index, bind, lift. rewrite Hd, Hf, _html_renders. reflexivity.
Qed.

(** C3, as stated, fails: a field name is put into the markup as it is, so
    one that closes its attribute and opens an element adds input elements
    of its own to the page. *)
Lemma markup_in_field_name_adds_inputs :
  ~ one_input_per_field test_env markup_app [markup_name].
Proof.
  intros H. destruct (H empty_world) as [html [Hr [Hin _]]].
  rewrite (index_renders test_env markup_app [markup_name] empty_world eq_refl eq_refl)
    in Hr.
  injection Hr as <-.
  apply (f_equal (@List.length string)) in Hin.
  vm_compute in Hin. discriminate Hin.
Qed.

(** C3, amended: for every configuration with no static directory, a title
    without [<] and a list of field names (non-empty or not) none of which
    holds [<], a double quote, [&], a carriage return or a NUL character,
    [GET /] answers 200 with a page whose input elements are, in the order
    of the list, one text input per field name, with id
    [input-<field_name>]. *)
Theorem index_has_one_input_per_plain_field
    (env : Env) (app : App) (names : list string) :
  static_dir app = None ->
  field_names app = Some names ->
  lacks "<" (title app) = true ->
  Forall (fun n => verbatim n = true) names ->
  one_input_per_field env app names.
Proof.
  intros Hd Hf Ht Hv w.
  assert (Hn : Forall (fun n => plain n = true) names).
  { eapply Forall_impl; [|exact Hv]. intros n H. unfold verbatim in H.
    apply andb_prop in H. exact (proj1 H). }
  eexists. split; [apply (index_renders env app names w Hd Hf)|].
  destruct (form_fields_scan names Hn) as [Hin Hst].
  rewrite (page_scan _ _ _ Ht (quoted_list_lacks names Hn) Hst), Hin.
  split; [reflexivity|].
  rewrite map_map. apply map_ext_in. intros n Hmem.
  rewrite Forall_forall in Hv. specialize (Hv n Hmem). unfold verbatim in Hv.
  apply andb_prop in Hv. destruct Hv as [Hp Hs].
  apply plain_parts in Hp. destruct Hp as [_ Hq].
  now apply element_id_text_input.
Qed.

Lemma index_has_one_input_per_plain_field_example :
  static_dir stub_app = None
  /\ field_names stub_app = Some ["premise"; "hypothesis"]
  /\ lacks "<" (title stub_app) = true
  /\ Forall (fun n => verbatim n = true) ["premise"; "hypothesis"]
  /\ one_input_per_field test_env stub_app ["premise"; "hypothesis"].
Proof.
  assert (H : Forall (fun n => verbatim n = true) ["premise"; "hypothesis"])
    by (repeat constructor).
  repeat (split; [reflexivity|]). split; [exact H|].
  apply (index_has_one_input_per_plain_field test_env stub_app
           ["premise"; "hypothesis"]); [reflexivity | reflexivity | reflexivity | exact H].
Defined.

(** * Further properties of the module *)

(** ** [make_app] *)

(** X1: [make_app] fails in one way only: it exits with code -1, and it
    does so exactly when a static directory is given whose absolute path
    does not exist. *)
Theorem make_app_fails_only_on_missing_static_dir
    (env : Env) (predictor : Predictor) (field_names : option (list string))
    (static_dir : option string) (sanitizer : option (json -> Outcome json))
    (title : string) (w : World) :
  (forall e, fst (make_app env predictor field_names static_dir sanitizer title w)
             = Raises e -> e = SystemExit (-1))
  /\ ((exists e, fst (make_app env predictor field_names static_dir sanitizer title w)
                 = Raises e)
      <-> (exists dir, static_dir = Some dir
                       /\ os_path_exists env (os_path_abspath env dir) = false)).
Proof.
  unfold make_app, bind.
  destruct static_dir as [dir|].
  - destruct (os_path_exists env (os_path_abspath env dir)) eqn:E; cbn.
    + split; [intros e H; discriminate H|]. split.
      * intros [e H]. discriminate H.
      * intros [d [Hd Hx]]. injection Hd as <-. congruence.
    + split; [intros e H; now injection H as <- |]. split; eauto.
  - destruct field_names; cbn.
    + split; [intros e H; discriminate H|]. split.
      * intros [e H]. discriminate H.
      * intros [d [Hd _]]. discriminate Hd.
    + split; [intros e H; discriminate H|]. split.
      * intros [e H]. discriminate H.
      * intros [d [Hd _]]. discriminate Hd.
Qed.

(** X2: when [make_app] returns, the app holds the predictor, field names,
    sanitizer and title it was given and the absolute path of the static
    directory; nothing was logged, no server was started, and the only thing
    it may have printed is the notice for the case that neither a static
    directory nor field names were passed. *)
Theorem make_app_returns_its_arguments
    (env : Env) (predictor : Predictor) (field_names : option (list string))
    (static_dir : option string) (sanitizer : option (json -> Outcome json))
    (title : string) (w w' : World) (app : App) :
  make_app env predictor field_names static_dir sanitizer title w = (Returns app, w') ->
  app = mkApp predictor field_names (option_map (os_path_abspath env) static_dir)
          sanitizer title
  /\ log w' = log w
  /\ serving w' = serving w
  /\ stdout w' =
     match static_dir, field_names with
     | None, None => (stdout w ++ [neither_passed])%list
     | _, _ => stdout w
     end.
Proof.
  unfold make_app, bind. destruct static_dir as [dir|].
  - destruct (os_path_exists env (os_path_abspath env dir)); cbn; intros H.
    + injection H as <- <-. repeat split.
    + discriminate H.
  - destruct field_names; cbn; intros H; injection H as <- <-; repeat split.
Qed.

Lemma make_app_returns_its_arguments_example :
  make_app test_env stub_predictor None (Some "/srv/demo") (Some drop_r) "Demo" empty_world
  = (Returns sanitizing_app, empty_world)
  /\ sanitizing_app
     = mkApp stub_predictor None
         (option_map (os_path_abspath test_env) (Some "/srv/demo")) (Some drop_r) "Demo"
  /\ stdout empty_world = [].
Proof.
  pose proof (make_app_returns_its_arguments test_env stub_predictor None
                (Some "/srv/demo") (Some drop_r) "Demo" empty_world empty_world
                sanitizing_app eq_refl) as H.
  split; [reflexivity|]. split; [exact (proj1 H) | reflexivity].
Defined.

(** ** Serving a static directory *)



(** ** [serve] *)

(** X4: when the predictor loads and the static directory, if one is given,
    exists, [serve] logs nothing, prints the notice exactly when neither
    a static directory nor field names were given and then the one line
    that names host and port, and ends serving, at that address, an app built
    from the field names, static directory and title of the command line,
    with no sanitizer. *)
Theorem serve_starts_the_server
    (env : Env) (args : Namespace) (loaded : Predictor) (w : World) :
  _get_predictor env args = Returns loaded ->
  (forall dir, args_static_dir args = Some dir ->
               os_path_exists env (os_path_abspath env dir) = true) ->
  serve env args w =
  (Returns tt,
   mkWorld (log w)
     (stdout w
      ++ match args_static_dir args, args_field_names args with
         | None, None => [neither_passed]
         | _, _ => []
         end
      ++ [("Model loaded, serving demo on http://" ++ args_host args ++ ":"
           ++ str_of_Z (args_port args))%string])%list
     (Some (mkWSGIServer (args_host args, args_port args)
              (mkApp loaded (args_field_names args)
                 (option_map (os_path_abspath env) (args_static_dir args))
                 None (args_title args))))).
Proof.
  intros Hl Hd. unfold serve, bind, lift at 1. rewrite Hl.
  unfold make_app, bind.
  destruct (args_static_dir args) as [dir|].
  - rewrite (Hd dir eq_refl). reflexivity.
  - destruct (args_field_names args); cbn; [reflexivity|].
    now rewrite <- app_assoc.
Qed.

Lemma serve_starts_the_server_example :
  _get_predictor test_env (serve_args (Some "/srv/demo") None) = Returns stub_predictor
  /\ (forall dir, args_static_dir (serve_args (Some "/srv/demo") None) = Some dir ->
                  os_path_exists test_env (os_path_abspath test_env dir) = true)
  /\ serve test_env (serve_args (Some "/srv/demo") None) empty_world
     = (Returns tt,
        mkWorld [] ["Model loaded, serving demo on http://127.0.0.1:8000"]
          (Some (mkWSGIServer ("127.0.0.1", 8000%Z)
                   (mkApp stub_predictor None (Some "/srv/demo") None default_title)))).
Proof.
  assert (Hd : forall dir, args_static_dir (serve_args (Some "/srv/demo") None) = Some dir ->
                           os_path_exists test_env (os_path_abspath test_env dir) = true).
  { intros dir H. injection H as <-. reflexivity. }
  split; [reflexivity|]. split; [exact Hd|].
  exact (serve_starts_the_server test_env (serve_args (Some "/srv/demo") None)
           stub_predictor empty_world eq_refl Hd).
Defined.

(** X5: when loading the predictor fails, in the GPU check, in reading the
    archive or in building the predictor, [serve] fails with that exception
    before it looks at the static directory: nothing is logged or printed
    and no server is started, even if the static directory is missing. *)
Theorem serve_fails_when_predictor_does_not_load
    (env : Env) (args : Namespace) (e : exn) (w : World) :
  _get_predictor env args = Raises e ->
  serve env args w = (Raises e, w)
  /\ (forall e', check_for_gpu env (args_cuda_device args) = Raises e' -> e' = e).
Proof.
  intros Hl. split.
  - unfold serve, bind, lift at 1. rewrite Hl. reflexivity.
  - intros e' Hg. unfold _get_predictor in Hl. rewrite Hg in Hl. cbn in Hl.
    now injection Hl.
Qed.

Lemma serve_fails_when_predictor_does_not_load_example :
  _get_predictor no_gpu_env
    (mkNamespace "model.tar.gz" "stub" None 0 EmptyString (Some "no/such/dir")
       default_title None "127.0.0.1" 8000)
  = Raises (OtherError "ConfigurationError")
  /\ serve no_gpu_env
       (mkNamespace "model.tar.gz" "stub" None 0 EmptyString (Some "no/such/dir")
          default_title None "127.0.0.1" 8000) empty_world
     = (Raises (OtherError "ConfigurationError"), empty_world).
Proof.
  split; [reflexivity|].
  exact (proj1 (serve_fails_when_predictor_does_not_load no_gpu_env
                  (mkNamespace "model.tar.gz" "stub" None 0 EmptyString
                     (Some "no/such/dir") default_title None "127.0.0.1" 8000)
                  (OtherError "ConfigurationError") empty_world eq_refl)).
Defined.

(** ** Which requests reach which view *)







(** ** What a request leaves behind *)



(** ** Prediction requests that fail *)

(** X9: when the predictor, or the sanitizer applied to its prediction,
    raises an ordinary exception, [POST /predict] is answered with the
    framework's 500 page; the log gets the framework's [ERROR] record of the
    exception and no record of the prediction. *)
Theorem predict_errors_are_500
    (env : Env) (app : App) (data : json) (e : exn) (w : World) :
  is_plain_error e = true ->
  predict_json (predictor app) data = Raises e
  \/ (exists out, predict_json (predictor app) data = Returns out
                  /\ sanitized (sanitizer app) out = Raises e) ->
  wsgi_app env app (mkRequest "POST" "/predict" (JsonBody data)) w
  = (mkResponse 500 (ErrorPage 500), logged w ERROR "Exception on /predict [POST]").
Proof.
  intros He H.
  apply (wsgi_app_plain_error env app (mkRequest "POST" "/predict" (JsonBody data)) e w w He).
  rewrite dispatch_predict.
  unfold predict, bind, lift, ret, get_json. cbn [method payload].
  change (("POST" =? "OPTIONS")%string) with false. cbv iota.
  destruct H as [H|[out [Ho Hs]]].
  - rewrite H. reflexivity.
  - rewrite Ho. unfold sanitized in Hs.
    destruct (sanitizer app) as [sanitize|]; [|discriminate Hs].
    rewrite Hs. reflexivity.
Qed.

Lemma predict_errors_are_500_example :
  is_plain_error (KeyError "a") = true
  /\ predict_json (predictor stub_app) (JObj [("b", JStr "x")]) = Raises (KeyError "a")
  /\ wsgi_app test_env stub_app
       (mkRequest "POST" "/predict" (JsonBody (JObj [("b", JStr "x")]))) empty_world
     = (mkResponse 500 (ErrorPage 500),
        mkWorld [(ERROR, "Exception on /predict [POST]")] [] None).
Proof.
  split; [reflexivity|]. split; [reflexivity|].
  apply (predict_errors_are_500 test_env stub_app (JObj [("b", JStr "x")])
           (KeyError "a") empty_world eq_refl).
  left. reflexivity.
Defined.

Lemma mapM_sanitize_raises (sanitize : json -> Outcome json)
    (before after : list json) (p : json) (e : exn) (w : World) :
  Forall (fun x => exists x', sanitize x = Returns x') before ->
  sanitize p = Raises e ->
  mapM (fun x => lift (sanitize x)) (before ++ p :: after)%list w = (Raises e, w).
Proof.
  intros Hb Hp. induction Hb as [|x before [x' Hx] _ IH]; cbn [app mapM].
  - unfold bind, lift at 1. rewrite Hp. reflexivity.
  - unfold bind, lift at 1. rewrite Hx, IH. reflexivity.
Qed.

(** X10: a batch is answered whole or not at all.  When
    [predict_batch_json] raises an ordinary exception, or the sanitizer
    raises one on some prediction after returning on those before it,
    [POST /predict_batch] is answered with the framework's 500 page,
    whatever the other predictions are; the log gets the framework's [ERROR]
    record of the exception and nothing else. *)
Theorem predict_batch_errors_are_500
    (env : Env) (app : App) (data : json) (e : exn) (w : World) :
  is_plain_error e = true ->
  predict_batch_json (predictor app) data = Raises e
  \/ (exists sanitize before p after,
        sanitizer app = Some sanitize
        /\ predict_batch_json (predictor app) data = Returns (before ++ p :: after)%list
        /\ Forall (fun x => exists x', sanitize x = Returns x') before
        /\ sanitize p = Raises e) ->
  wsgi_app env app (mkRequest "POST" "/predict_batch" (JsonBody data)) w
  = (mkResponse 500 (ErrorPage 500),
     logged w ERROR "Exception on /predict_batch [POST]").
Proof.
  intros He H.
  apply (wsgi_app_plain_error env app
           (mkRequest "POST" "/predict_batch" (JsonBody data)) e w w He).
  rewrite dispatch_predict_batch.
  unfold predict_batch, get_json. cbn [method payload].
  change (("POST" =? "OPTIONS")%string) with false. cbv iota.
  unfold bind at 1 2, lift at 1 2.
  destruct H as [H|[sanitize [before [p [after [Hs [Ho [Hb Hp]]]]]]]].
  - rewrite H. reflexivity.
  - rewrite Ho, Hs. unfold bind.
    rewrite (mapM_sanitize_raises sanitize before after p e w Hb Hp). reflexivity.
Qed.

Lemma predict_batch_errors_are_500_example :
  is_plain_error (ValueError "y") = true
  /\ predict_batch_json stub_predictor (JArr [a_x; a_y; a_x]) = Returns [r_x; r_y; r_x]
  /\ picky_sanitizer r_x = Returns r_x
  /\ picky_sanitizer r_y = Raises (ValueError "y")
  /\ wsgi_app test_env
       (mkApp stub_predictor None None (Some picky_sanitizer) default_title)
       (mkRequest "POST" "/predict_batch" (JsonBody (JArr [a_x; a_y; a_x]))) empty_world
     = (mkResponse 500 (ErrorPage 500),
        mkWorld [(ERROR, "Exception on /predict_batch [POST]")] [] None).
Proof.
  repeat (split; [reflexivity|]).
  apply (predict_batch_errors_are_500 test_env
           (mkApp stub_predictor None None (Some picky_sanitizer) default_title)
           (JArr [a_x; a_y; a_x]) (ValueError "y") empty_world eq_refl).
  right. exists picky_sanitizer, [r_x], r_y, [r_x].
  repeat (split; [reflexivity|]). split; [|reflexivity].
  constructor; [|constructor]. exists r_x. reflexivity.
Defined.




(** ** What the page shows *)

Lemma prefix_append (x post : string) : String.prefix x (x ++ post) = true.
Proof.
  induction x as [|c x IH]; cbn; [now destruct post|].
  destruct (ascii_dec c c); [exact IH | congruence].
Qed.

Lemma prefix_split (x : string) : forall s,
  String.prefix x s = true -> exists post, s = x ++ post.
Proof.
  induction x as [|c x IH]; intros s.
  - intros _. now exists s.
  - destruct s as [|d s]; cbn; [discriminate|].
    destruct (ascii_dec c d) as [<-|]; [|discriminate].
    intros H. destruct (IH s H) as [post ->]. now exists post.
Qed.

Lemma contains_middle (x post : string) : forall pre,
  contains x (pre ++ x ++ post) = true.
Proof.
  induction pre as [|c pre IH].
  - cbn [append]. destruct (x ++ post) as [|c r] eqn:E; cbn [contains];
      rewrite <- E, prefix_append; reflexivity.
  - cbn [append contains]. rewrite IH. apply orb_true_r.
Qed.

Lemma contains_split (x : string) : forall s,
  contains x s = true -> exists pre post, s = pre ++ x ++ post.
Proof.
  induction s as [|c s IH]; cbn [contains]; intros H.
  - destruct (prefix_split _ _ H) as [post E]. now exists EmptyString, post.
  - apply orb_prop in H. destruct H as [H|H].
    + destruct (prefix_split _ _ H) as [post E]. now exists EmptyString, post.
    + destruct (IH H) as [pre [post ->]]. now exists (String c pre), post.
Qed.

Lemma contains_inside (x a s b : string) :
  contains x s = true -> contains x (a ++ s ++ b) = true.
Proof.
  intros H. destruct (contains_split _ _ H) as [pre [post ->]].
  replace (a ++ (pre ++ x ++ post) ++ b) with ((a ++ pre) ++ x ++ (post ++ b))
    by (now rewrite !append_assoc3).
  apply contains_middle.
Qed.

Lemma contains_at_end (x a s : string) :
  contains x s = true -> contains x (a ++ s) = true.
Proof.
  intros H. rewrite <- (append_empty_r s). now apply contains_inside.
Qed.

Lemma contains_at_start (x s b : string) :
  contains x s = true -> contains x (s ++ b) = true.
Proof.
  intros H. change (s ++ b) with (EmptyString ++ s ++ b). now apply contains_inside.
Qed.

Lemma page_shows_title (title inputs qfl : string) :
  contains ("<title>
            " ++ title ++ "
        </title>") (page title inputs qfl) = true
  /\ contains ("<h2><span>" ++ title ++ "</span></h2>") (page title inputs qfl) = true.
Proof.
  unfold page.
  set (l0 := literal _PAGE_TEMPLATE 0). set (l2 := literal _PAGE_TEMPLATE 2).
  set (l4 := literal _PAGE_TEMPLATE 4). set (l6 := literal _PAGE_TEMPLATE 6).
  set (rest := inputs ++ _).
  assert (E0 : l0 = take 27 l0 ++ "<title>
            ") by (vm_compute; reflexivity).
  assert (E2 : l2 = "
        </title>" ++ drop 17 l2) by (vm_compute; reflexivity).
  assert (E4 : l4 = take 242 l4 ++ "<h2><span>") by (vm_compute; reflexivity).
  assert (E6 : l6 = "</span></h2>" ++ drop 12 l6) by (vm_compute; reflexivity).
  split.
  - rewrite E0, E2.
    replace ((take 27 l0 ++ "<title>
            ") ++ title ++ ("
        </title>" ++ drop 17 l2) ++ _CSS ++ l4 ++ title ++ l6 ++ rest)
      with (take 27 l0 ++ ("<title>
            " ++ title ++ "
        </title>") ++ (drop 17 l2 ++ _CSS ++ l4 ++ title ++ l6 ++ rest))
      by (now rewrite !append_assoc3).
    apply contains_middle.
  - rewrite E4, E6.
    replace (l0 ++ title ++ l2 ++ _CSS ++ (take 242 l4 ++ "<h2><span>") ++ title
             ++ ("</span></h2>" ++ drop 12 l6) ++ rest)
      with ((l0 ++ title ++ l2 ++ _CSS ++ take 242 l4)
            ++ ("<h2><span>" ++ title ++ "</span></h2>") ++ (drop 12 l6 ++ rest))
      by (now rewrite !append_assoc3).
    apply contains_middle.
Qed.

(** X12: [_html] returns a page for every title and every list of field
    names, whatever characters they hold (a [$] in them is not read as a
    placeholder), and the page shows the title as it is in both places, the
    [title] element and the heading. *)
Theorem html_page_shows_the_title (title : string) (names : list string) :
  exists html,
    _html title (Some names) = Returns html
    /\ contains ("<title>
            " ++ title ++ "
        </title>") html = true
    /\ contains ("<h2><span>" ++ title ++ "</span></h2>") html = true.
Proof.
  eexists. split; [apply _html_renders|]. apply page_shows_title.
Qed.

Lemma form_field_shows_label (n : string) :
  contains (field_label n) (form_field n) = true.
Proof.
  unfold form_field, field_label, q.
  set (l0 := literal _SINGLE_INPUT_TEMPLATE 0).
  set (l2 := literal _SINGLE_INPUT_TEMPLATE 2).
  set (l4 := literal _SINGLE_INPUT_TEMPLATE 4).
  set (l6 := literal _SINGLE_INPUT_TEMPLATE 6).
  assert (E0 : l0 = take 47 l0 ++ "<label for=" ++ dq ++ "input-")
    by (vm_compute; reflexivity).
  assert (E2 : l2 = dq ++ ">") by (vm_compute; reflexivity).
  assert (E4 : l4 = "</label>" ++ drop 8 l4) by (vm_compute; reflexivity).
  rewrite E0, E2, E4.
  replace ((take 47 l0 ++ "<label for=" ++ dq ++ "input-") ++ n ++ (dq ++ ">") ++ n
           ++ ("</label>" ++ drop 8 l4) ++ n ++ l6)
    with (take 47 l0
          ++ ("<label for=" ++ (dq ++ ("input-" ++ n) ++ dq) ++ ">" ++ n ++ "</label>")
          ++ (drop 8 l4 ++ n ++ l6))
    by (now rewrite !append_assoc3).
  apply contains_middle.
Qed.

Lemma inputs_show_labels (names : list string) (n : string) :
  In n names ->
  contains (field_label n) (join EmptyString (map form_field names)) = true.
Proof.
  induction names as [|m names IH]; intros H; [destruct H|].
  cbn [map]. rewrite join_empty_cons. destruct H as [->|H].
  - apply contains_at_start, form_field_shows_label.
  - apply contains_at_end, IH, H.
Qed.

Lemma page_shows_fields (title inputs : string) (names : list string) :
  contains (script_field_list names)
    (page title inputs
       ("[" ++ join "," (map (fun n => "'" ++ n ++ "'") names) ++ "]")) = true
  /\ contains "xhr.open('POST', '/predict');"
       (page title inputs
          ("[" ++ join "," (map (fun n => "'" ++ n ++ "'") names) ++ "]")) = true
  /\ (forall x, contains x inputs = true ->
                contains x
                  (page title inputs
                     ("[" ++ join "," (map (fun n => "'" ++ n ++ "'") names) ++ "]"))
                = true).
Proof.
  unfold page, script_field_list.
  set (J := join "," (map (fun n => "'" ++ n ++ "'") names)).
  set (l8 := literal _PAGE_TEMPLATE 8). set (l10 := literal _PAGE_TEMPLATE 10).
  set (front := fun tail : string =>
                  literal _PAGE_TEMPLATE 0 ++ title ++ literal _PAGE_TEMPLATE 2 ++ _CSS
                  ++ literal _PAGE_TEMPLATE 4 ++ title ++ literal _PAGE_TEMPLATE 6
                  ++ tail).
  change (literal _PAGE_TEMPLATE 0 ++ title ++ literal _PAGE_TEMPLATE 2 ++ _CSS
          ++ literal _PAGE_TEMPLATE 4 ++ title ++ literal _PAGE_TEMPLATE 6
          ++ inputs ++ l8 ++ ("[" ++ J ++ "]") ++ l10)
    with (front (inputs ++ l8 ++ ("[" ++ J ++ "]") ++ l10)).
  assert (Hfront : forall x tail, contains x tail = true -> contains x (front tail) = true).
  { intros x tail H. unfold front.
    replace (literal _PAGE_TEMPLATE 0 ++ title ++ literal _PAGE_TEMPLATE 2 ++ _CSS
             ++ literal _PAGE_TEMPLATE 4 ++ title ++ literal _PAGE_TEMPLATE 6 ++ tail)
      with ((literal _PAGE_TEMPLATE 0 ++ title ++ literal _PAGE_TEMPLATE 2 ++ _CSS
             ++ literal _PAGE_TEMPLATE 4 ++ title ++ literal _PAGE_TEMPLATE 6) ++ tail)
      by (now rewrite !append_assoc3).
    now apply contains_at_end. }
  assert (E8 : l8 = take 1054 l8 ++ "var quotedFieldList = ")
    by (vm_compute; reflexivity).
  assert (E10 : l10 = ";" ++ drop 1 l10) by (vm_compute; reflexivity).
  assert (H10 : contains "xhr.open('POST', '/predict');" l10 = true)
    by (vm_compute; reflexivity).
  split; [|split].
  - apply Hfront. rewrite E8, E10.
    replace (inputs ++ (take 1054 l8 ++ "var quotedFieldList = ") ++ ("[" ++ J ++ "]")
             ++ ";" ++ drop 1 l10)
      with ((inputs ++ take 1054 l8) ++ ("var quotedFieldList = [" ++ J ++ "];")
            ++ drop 1 l10)
      by (now rewrite !append_assoc3).
    apply contains_middle.
  - apply Hfront.
    replace (inputs ++ l8 ++ ("[" ++ J ++ "]") ++ l10)
      with ((inputs ++ l8 ++ "[" ++ J ++ "]") ++ l10)
      by (now rewrite !append_assoc3).
    now apply contains_at_end.
  - intros x Hx. apply Hfront. now apply contains_at_start.
Qed.

(** X13: for every title and every list of field names, the page [_html]
    returns has, for each field name, the label of its input, and a script
    that lists the field names, quoted, in the order given, and sends them
    with [POST] to [/predict], which is a method and a path that the URL map
    hands to the [predict] view. *)
Theorem html_page_shows_the_fields (title : string) (names : list string) :
  exists html,
    _html title (Some names) = Returns html
    /\ Forall (fun n => contains (field_label n) html = true) names
    /\ contains (script_field_list names) html = true
    /\ contains "xhr.open('POST', '/predict');" html = true
    /\ forall body, exists rule,
         match_request (mkRequest "POST" "/predict" body) = Returns (rule, EmptyString)
         /\ rule_endpoint rule = predict_endpoint.
Proof.
  eexists. split; [apply _html_renders|].
  destruct (page_shows_fields title (join EmptyString (map form_field names)) names)
    as [Hs [Hp Hi]].
  split; [|split; [exact Hs | split; [exact Hp|]]].
  - apply Forall_forall. intros n Hn. apply Hi. now apply inputs_show_labels.
  - intros body. eexists. split; reflexivity.
Qed.

(** ** The page is well nested *)

Lemma tags_append_closed (a b : string) :
  snd (scan Outside a) = Outside ->
  tags (a ++ b) = (tags a ++ tags b)%list
  /\ snd (scan Outside (a ++ b)) = snd (scan Outside b).
Proof.
  unfold tags. intros H. rewrite scan_append.
  destruct (scan Outside a) as [found st]. cbn [snd] in H. subst st.
  destruct (scan Outside b) as [found2 st2]. split; reflexivity.
Qed.

Lemma tags_lacks (s : string) :
  lacks "<" s = true -> tags s = [] /\ snd (scan Outside s) = Outside.
Proof.
  intros H. unfold tags. rewrite (scan_outside_lacks s H). split; reflexivity.
Qed.

(** The tags [_SINGLE_INPUT_TEMPLATE] renders for one field name. *)
Lemma form_field_tags (n : string) :
  lacks "<" n = true -> lacks dquote n = true ->
  tags (form_field n) =
  ["div class=" ++ q "form__field"; ("label for=" ++ dq ++ "input-") ++ n ++ dq;
   "/label"; text_input n; "/div"]
  /\ snd (scan Outside (form_field n)) = Outside.
Proof.
  intros Hlt Hq.
  assert (H0 : scan Outside (literal _SINGLE_INPUT_TEMPLATE 0) =
               (["div class=" ++ q "form__field"],
                Inside ("label for=" ++ dq ++ "input-") (Some dquote)))
    by (vm_compute; reflexivity).
  assert (H2 : scan (Inside EmptyString (Some dquote))
                 (literal _SINGLE_INPUT_TEMPLATE 2) = ([dq], Outside))
    by (vm_compute; reflexivity).
  assert (H4 : scan Outside (literal _SINGLE_INPUT_TEMPLATE 4) =
               (["/label"],
                Inside ("input type=" ++ q "text" ++ " id=" ++ dq ++ "input-")
                  (Some dquote)))
    by (vm_compute; reflexivity).
  assert (H6 : scan (Inside EmptyString (Some dquote))
                 (literal _SINGLE_INPUT_TEMPLATE 6) =
               ([dq ++ " type=" ++ q "text" ++ " required value placeholder="
                    ++ q "input goes here"; "/div"], Outside))
    by (vm_compute; reflexivity).
  unfold tags, form_field.
  rewrite scan_append, H0.
  rewrite scan_append, (scan_quoted_lacks _ _ Hq).
  rewrite scan_append, scan_inside, H2. cbn [shift].
  rewrite scan_append, (scan_outside_lacks _ Hlt).
  rewrite scan_append, H4.
  rewrite scan_append, (scan_quoted_lacks _ _ Hq).
  rewrite scan_inside, H6. cbn [shift app fst snd].
  rewrite <- text_input_pieces. split; reflexivity.
Qed.

(** The tags of one field leave the open elements as they were. *)
Lemma nesting_field (n : string) (open rest : list string) :
  nesting open
    (("div class=" ++ q "form__field") :: (("label for=" ++ dq ++ "input-") ++ n ++ dq)
     :: "/label" :: text_input n :: "/div" :: rest)
  = nesting open rest.
Proof. reflexivity. Qed.

Lemma nesting_fields (names : list string) : forall open rest,
  Forall (fun n => plain n = true) names ->
  exists ts,
    tags (join EmptyString (map form_field names)) = ts
    /\ snd (scan Outside (join EmptyString (map form_field names))) = Outside
    /\ nesting open (ts ++ rest) = nesting open rest.
Proof.
  intros open rest H. induction H as [|n names Hn _ IH].
  - exists []. repeat split.
  - destruct IH as [ts [Et [Es En]]].
    apply plain_parts in Hn. destruct Hn as [Hlt Hq].
    destruct (form_field_tags n Hlt Hq) as [Ef Ec].
    cbn [map]. rewrite join_empty_cons.
    destruct (tags_append_closed (form_field n)
                (join EmptyString (map form_field names)) Ec) as [E1 E2].
    eexists. split; [reflexivity|]. split; [now rewrite E2|].
    rewrite E1, Ef, Et. cbn [app]. rewrite nesting_field. exact En.
Qed.

Lemma page_tags (title inputs qfl : string) :
  lacks "<" title = true -> lacks "<" qfl = true ->
  snd (scan Outside inputs) = Outside ->
  exists before after open,
    tags (page title inputs qfl) = (before ++ tags inputs ++ after)%list
    /\ nesting [] before = Some open
    /\ nesting open after = Some [].
Proof.
  intros Ht Hq Hin.
  destruct (tags_lacks _ Ht) as [Tt Ct]. destruct (tags_lacks _ Hq) as [Tq Cq].
  assert (C0 : snd (scan Outside (literal _PAGE_TEMPLATE 0)) = Outside)
    by (vm_compute; reflexivity).
  assert (C2 : snd (scan Outside (literal _PAGE_TEMPLATE 2)) = Outside)
    by (vm_compute; reflexivity).
  assert (Cc : snd (scan Outside _CSS) = Outside) by (vm_compute; reflexivity).
  assert (C4 : snd (scan Outside (literal _PAGE_TEMPLATE 4)) = Outside)
    by (vm_compute; reflexivity).
  assert (C6 : snd (scan Outside (literal _PAGE_TEMPLATE 6)) = Outside)
    by (vm_compute; reflexivity).
  assert (C8 : snd (scan Outside (literal _PAGE_TEMPLATE 8)) = Outside)
    by (vm_compute; reflexivity).
  assert (N : exists open,
            nesting []
              (tags (literal _PAGE_TEMPLATE 0) ++ tags (literal _PAGE_TEMPLATE 2)
               ++ tags _CSS ++ tags (literal _PAGE_TEMPLATE 4)
               ++ tags (literal _PAGE_TEMPLATE 6))%list = Some open
            /\ nesting open
                 (tags (literal _PAGE_TEMPLATE 8) ++ tags (literal _PAGE_TEMPLATE 10))%list
               = Some []).
  { eexists. split; vm_compute; reflexivity. }
  destruct N as [open [N1 N2]].
  exists (tags (literal _PAGE_TEMPLATE 0) ++ tags (literal _PAGE_TEMPLATE 2)
          ++ tags _CSS ++ tags (literal _PAGE_TEMPLATE 4)
          ++ tags (literal _PAGE_TEMPLATE 6))%list,
         (tags (literal _PAGE_TEMPLATE 8) ++ tags (literal _PAGE_TEMPLATE 10))%list,
         open.
  split; [|split; assumption].
  unfold page.
  rewrite (proj1 (tags_append_closed _ _ C0)), (proj1 (tags_append_closed _ _ Ct)), Tt,
    (proj1 (tags_append_closed _ _ C2)), (proj1 (tags_append_closed _ _ Cc)),
    (proj1 (tags_append_closed _ _ C4)), (proj1 (tags_append_closed _ _ Ct)), Tt,
    (proj1 (tags_append_closed _ _ C6)), (proj1 (tags_append_closed _ _ Hin)),
    (proj1 (tags_append_closed _ _ C8)), (proj1 (tags_append_closed _ _ Cq)), Tq.
  cbn [app]. now rewrite <- !app_assoc.
Qed.

Lemma nesting_append (a : list string) : forall open b,
  nesting open (a ++ b) =
  match nesting open a with
  | Some open' => nesting open' b
  | None => None
  end.
Proof.
  induction a as [|t a IH]; intros open b; [reflexivity|].
  cbn [app nesting]. destruct t as [|c name].
  - destruct (mem (tag_name EmptyString) void_elements); apply IH.
  - destruct (Ascii.ascii_dec c "/") as [->|Hc].
    + destruct open as [|top below]; [reflexivity|].
      destruct (String.eqb (tag_name name) top); [apply IH | reflexivity].
    + destruct c as [[] [] [] [] [] [] [] []]; try (exfalso; apply Hc; reflexivity);
        (destruct (mem (tag_name _) void_elements); apply IH).
Qed.

(** X14: for a title without [<] and field names without [<] or double
    quote, the page [_html] returns is well nested: reading its tags in
    order, every closing tag closes the innermost open element, [input]
    being void, and no element is left open at the end. *)
Theorem html_page_is_well_nested (title : string) (names : list string) :
  lacks "<" title = true ->
  Forall (fun n => plain n = true) names ->
  exists html, _html title (Some names) = Returns html /\ well_nested html = true.
Proof.
  intros Ht Hn. eexists. split; [apply _html_renders|].
  unfold well_nested.
  destruct (nesting_fields names [] [] Hn) as [ts0 [_ [Hc _]]].
  destruct (page_tags title (join EmptyString (map form_field names))
              ("[" ++ join "," (map (fun n => "'" ++ n ++ "'") names) ++ "]")
              Ht (quoted_list_lacks names Hn) Hc) as [before [after [open [Et [N1 N2]]]]].
  rewrite Et, nesting_append, N1.
  destruct (nesting_fields names open after Hn) as [ts [E [_ En]]].
  rewrite E, En, N2. reflexivity.
Qed.

Lemma html_page_is_well_nested_example :
  lacks "<" default_title = true
  /\ Forall (fun n => plain n = true) ["premise"; "hypothesis"]
  /\ exists html,
       _html default_title (Some ["premise"; "hypothesis"]) = Returns html
       /\ well_nested html = true.
Proof.
  assert (H : Forall (fun n => plain n = true) ["premise"; "hypothesis"])
    by (repeat constructor).
  split; [reflexivity|]. split; [exact H|].
  exact (html_page_is_well_nested default_title ["premise"; "hypothesis"] eq_refl H).
Defined.
